(** * MediBot (main.py): payload construction, reply extraction and the
      submit handler, over a small model of the Python store.

    The script keeps its conversation in a Python list of dicts
    ([st.session_state.messages]) and [get_medibot_reply] builds a second
    list of dicts, one of which it mutates in place when an attachment is
    given.  Lists and dicts are therefore objects in a store, values refer
    to them by location, and every statement of the source is a step of a
    state-and-exception monad over that store. *)

From Stdlib Require Import Ascii String.
From stdpp Require Import base numbers option list strings gmap.

Open Scope string_scope.
Open Scope list_scope.
Open Scope stdpp_scope.

(** ** Python strings

    A [str] is a sequence of Unicode code points. *)

Abbreviation pystr := (list N) (only parsing).

(** An ASCII literal of the source, as code points. *)
Definition lit (s : string) : pystr :=
  (fun c => N_of_ascii c) <$> list_ascii_of_string s.

(** [str.isspace] on one character (CPython's [_PyUnicode_IsWhitespace]). *)
Definition py_isspace (c : N) : bool :=
  ((9 <=? c) && (c <=? 13) || (28 <=? c) && (c <=? 32)
   || (c =? 133) || (c =? 160) || (c =? 5760)
   || (8192 <=? c) && (c <=? 8202)
   || (c =? 8232) || (c =? 8233) || (c =? 8239) || (c =? 8287)
   || (c =? 12288))%N.

Fixpoint lstrip (s : pystr) : pystr :=
  match s with
  | c :: s' => if py_isspace c then lstrip s' else s
  | [] => []
  end.

Definition rstrip (s : pystr) : pystr := reverse (lstrip (reverse s)).

(** [s.strip()] *)
Definition strip (s : pystr) : pystr := rstrip (lstrip s).

(** Truth value of a [str]: the empty string is false. *)
Definition str_truthy (s : pystr) : bool :=
  match s with [] => false | _ => true end.

(** ** Values, objects, store *)

Abbreviation loc := nat (only parsing).

Inductive val :=
  | VNone
  | VStr (s : pystr)
  | VRef (l : loc).

Inductive obj :=
  | ODict (d : gmap string val)
  | OList (xs : list val).

#[global] Instance val_eq_dec : EqDecision val.
Proof. solve_decision. Defined.

(** What the remote chat API is given: turns with a role and parts; a part
    is a text, Python's [None], or inline data with its MIME type. *)
Inductive part :=
  | PText (s : pystr)
  | PNull
  | PInline (mime data : pystr).

Record turn := Turn { t_role : pystr; t_parts : list part }.

#[global] Instance part_eq_dec : EqDecision part.
Proof. solve_decision. Defined.

#[global] Instance turn_eq_dec : EqDecision turn.
Proof. solve_decision. Defined.

(** Python exceptions the script can meet (all subclasses of [Exception]). *)
Inductive exn :=
  | IndexError
  | KeyError (k : string)
  | AttributeError
  | TypeError
  | ValueError (detail : pystr)
  | RemoteError (detail : pystr).

(** Observable effects, in program order. *)
Inductive event :=
  | EvSend (history : list turn) (content : val)
  | EvPrint (text : pystr)
  | EvStError (e : exn)
  | EvRerun.

Record state := State { heap : list obj; trace : list event }.

(** A step ends normally, raises a Python exception, or is [Stuck]: the
    model does not cover it (a dangling location, a value of a type the
    annotations exclude where the model has no rule, or a loop that outran
    its budget).  [Stuck] is not an exception: no handler catches it. *)
Inductive result (A : Type) :=
  | Ok (a : A)
  | Raise (e : exn)
  | Stuck.
Arguments Ok {A} a.
Arguments Raise {A} e.
Arguments Stuck {A}.

Definition M (A : Type) : Type := state -> result A * state.

#[global] Instance M_ret : MRet M := fun A a st => (Ok a, st).

#[global] Instance M_bind : MBind M := fun A B f m st =>
  match m st with
  | (Ok a, st') => f a st'
  | (Raise e, st') => (Raise e, st')
  | (Stuck, st') => (Stuck, st')
  end.

Definition raise {A} (e : exn) : M A := fun st => (Raise e, st).
Definition stuck {A} : M A := fun st => (Stuck, st).

(** [try: body except Exception as e: handler e] *)
Definition try_except {A} (body : M A) (handler : exn -> M A) : M A :=
  fun st =>
    match body st with
    | (Raise e, st') => handler e st'
    | r => r
    end.

Definition emit (ev : event) : M unit := fun st =>
  (Ok tt, {| heap := heap st; trace := trace st ++ [ev] |}).

(** A new object gets the next free location; nothing is ever freed. *)
Definition alloc (o : obj) : M loc := fun st =>
  (Ok (length (heap st)), {| heap := heap st ++ [o]; trace := trace st |}).

Definition load (l : loc) : M obj := fun st =>
  match heap st !! l with
  | Some o => (Ok o, st)
  | None => (Stuck, st)
  end.

Definition store (l : loc) (o : obj) : M unit := fun st =>
  (Ok tt, {| heap := <[l := o]> (heap st); trace := trace st |}).

(** [v.get(k)]: only a dict has [get]; a missing key gives [None]. *)
Definition dict_get (v : val) (k : string) : M val :=
  match v with
  | VRef l =>
      o ← load l;
      match o with
      | ODict d => mret (default VNone (d !! k))
      | OList _ => raise AttributeError
      end
  | _ => raise AttributeError
  end.

(** [v[k]] for a string key [k]. *)
Definition subscript_key (v : val) (k : string) : M val :=
  match v with
  | VRef l =>
      o ← load l;
      match o with
      | ODict d => match d !! k with Some x => mret x | None => raise (KeyError k) end
      | OList _ => raise TypeError
      end
  | _ => raise TypeError
  end.

(** [v[-1]] for a list [v]. *)
Definition subscript_last (v : val) : M val :=
  match v with
  | VRef l =>
      o ← load l;
      match o with
      | OList xs => match last xs with Some x => mret x | None => raise IndexError end
      | ODict _ => stuck
      end
  | _ => stuck
  end.

(** [v.append(x)]: only a list has [append]; the list object is updated in
    place. *)
Definition list_append (v : val) (x : val) : M unit :=
  match v with
  | VRef l =>
      o ← load l;
      match o with
      | OList xs => store l (OList (xs ++ [x]))
      | ODict _ => raise AttributeError
      end
  | _ => raise AttributeError
  end.

(** Truth value of a list reference: a list is false when empty. *)
Definition list_truthy (v : val) : M bool :=
  match v with
  | VRef l =>
      o ← load l;
      match o with
      | OList xs => mret (match xs with [] => false | _ => true end)
      | ODict _ => stuck
      end
  | _ => stuck
  end.

(** [for x in v: body x] for a list [v].  Python's list iterator keeps an
    index and reads the list object again at every step, so a body that
    changes the list changes the iteration.  The budget is the length on
    entry plus one: a loop whose body grows the list it iterates is not
    covered. *)
Fixpoint for_each (fuel i : nat) (l : loc) (body : val -> M unit) : M unit :=
  match fuel with
  | O => stuck
  | S fuel' =>
      o ← load l;
      match o with
      | OList xs =>
          match xs !! i with
          | Some x => body x;; for_each fuel' (S i) l body
          | None => mret tt
          end
      | ODict _ => stuck
      end
  end.

Definition for_in (v : val) (body : val -> M unit) : M unit :=
  match v with
  | VRef l =>
      o ← load l;
      match o with
      | OList xs => for_each (S (length xs)) 0 l body
      | ODict _ => stuck
      end
  | _ => stuck
  end.

(** ** Reading a payload back from the store

    [conversation_history] is a list of dicts [{"role": r, "parts": ps}]
    whose parts are strings or [{"inline_data": {"mime_type": m, "data": a}}].
    The chat API is handed that structure; these functions read it. *)

Definition as_dict (o : obj) : option (gmap string val) :=
  match o with ODict d => Some d | OList _ => None end.

Definition as_list (o : obj) : option (list val) :=
  match o with OList xs => Some xs | ODict _ => None end.

Definition as_ref (v : val) : option loc :=
  match v with VRef l => Some l | _ => None end.

Definition as_str (v : val) : option pystr :=
  match v with VStr s => Some s | _ => None end.

Definition read_part (h : list obj) (v : val) : option part :=
  match v with
  | VStr s => Some (PText s)
  | VNone => Some PNull
  | VRef l =>
      d ← h !! l ≫= as_dict;
      l2 ← d !! "inline_data" ≫= as_ref;
      d2 ← h !! l2 ≫= as_dict;
      m ← d2 !! "mime_type" ≫= as_str;
      a ← d2 !! "data" ≫= as_str;
      Some (PInline m a)
  end.

Definition read_turn (h : list obj) (v : val) : option turn :=
  l ← as_ref v;
  d ← h !! l ≫= as_dict;
  r ← d !! "role" ≫= as_str;
  lp ← d !! "parts" ≫= as_ref;
  ps ← h !! lp ≫= as_list;
  parts ← mapM (read_part h) ps;
  Some (Turn r parts).

Definition read_payload (h : list obj) (v : val) : option (list turn) :=
  l ← as_ref v;
  refs ← h !! l ≫= as_list;
  mapM (read_turn h) refs.

(** The transcript as the script holds it: a list of references to dicts. *)
Definition read_messages (h : list obj) (v : val) : option (list (gmap string val)) :=
  l ← as_ref v;
  refs ← h !! l ≫= as_list;
  mapM (fun r => l' ← as_ref r; h !! l' ≫= as_dict) refs.

(** ** Constants of the source *)

Definition warning_sign : pystr := [9888%N; 65039%N].
Definition nl : pystr := [10%N].

(** [SYSTEM_PROMPT_TEMPLATE] is the text before and the text after its one
    replacement field, [{language}]. *)
Definition prompt_head : pystr :=
  lit "You are MediBot, a soft-spoken, empathetic medical advisory assistant." ++ nl ++
  lit "- Speak in a caring, calm tone." ++ nl ++
  lit "- Your primary role is to provide general, educational information about symptoms and conditions." ++ nl ++
  lit "- DO NOT provide any diagnoses, prescriptions, or definitive medical advice. This is crucial." ++ nl ++
  lit "- If the user asks an unrelated question, reply gently: '" ++ warning_sign ++
  lit " I can only help with medical-related queries.'" ++ nl ++
  lit "- For any medical query, always provide information on self-care measures and strongly recommend consulting a healthcare professional." ++ nl ++
  lit "- Use the requested language: ".

Definition prompt_tail : pystr :=
  lit "." ++ nl ++
  lit "- End every response with the disclaimer: '" ++ warning_sign ++
  lit " This is not a substitute for professional medical consultation.'" ++ nl ++ nl.

Definition SYSTEM_PROMPT_TEMPLATE : pystr * pystr := (prompt_head, prompt_tail).

(** [SYSTEM_PROMPT_TEMPLATE.format(language=language)] *)
Definition system_prompt (language : pystr) : pystr :=
  SYSTEM_PROMPT_TEMPLATE.1 ++ language ++ SYSTEM_PROMPT_TEMPLATE.2.

Definition ack_text : pystr :=
  lit "Understood. I will follow all the provided instructions.".

Definition safety_apology : pystr :=
  lit "I'm sorry, I cannot respond to that query. It may have been flagged for safety reasons.".

Definition retry_message : pystr :=
  lit "Sorry, I couldn't generate a response. Please try again.".

Definition internal_error : pystr :=
  lit "An internal error occurred. Please try again.".

Definition safety_settings : gmap string val :=
  {[ "HARM_CATEGORY_HARASSMENT" := VStr (lit "BLOCK_NONE");
     "HARM_CATEGORY_HATE_SPEECH" := VStr (lit "BLOCK_NONE");
     "HARM_CATEGORY_SEXUALLY_EXPLICIT" := VStr (lit "BLOCK_NONE");
     "HARM_CATEGORY_DANGEROUS_CONTENT" := VStr (lit "BLOCK_NONE") ]}.

(** ** The remote side

    What [chat.send_message] gives back, as the function reads it: the call
    raises, or returns a response (possibly a false value) with a [text] and
    a [prompt_feedback] whose safety ratings are printed.

    [response.text] is a property of the library's response object, not a
    stored field: reading it raises [ValueError] when the response holds no
    part to read (a reply that came back empty, or was withheld for
    safety), and gives the text of the parts, possibly empty, otherwise.
    A prompt the service refuses outright makes the call itself raise. *)

Inductive text_access :=
  | TextRaises (detail : pystr)
  | TextIs (s : pystr).

Record response := Response {
  text : text_access;
  prompt_feedback : option pystr
}.

Inductive remote_outcome :=
  | CallRaises (detail : pystr)
  | CallReturns (r : option response).

Section MediBot.

(** The hosted model: any function of the chat history and the message
    sent. *)
Variable remote : list turn -> val -> remote_outcome.

(** [conversation_history.append({"role": role, "parts": [content]})],
    the list display first, then the dict. *)
Definition append_turn (conversation_history : val) (role : pystr) (content : val) : M unit :=
  lp ← alloc (OList [content]);
  lt ← alloc (ODict {[ "role" := VStr role; "parts" := VRef lp ]});
  list_append conversation_history (VRef lt).

(** Body of [for m in messages] (lines 45-48). *)
Definition add_message (conversation_history : val) (m : val) : M unit :=
  r ← dict_get m "role";
  if bool_decide (r = VStr (lit "user")) then
    c ← dict_get m "content";
    append_turn conversation_history (lit "user") c
  else
    r' ← dict_get m "role";
    if bool_decide (r' = VStr (lit "assistant")) then
      c ← dict_get m "content";
      append_turn conversation_history (lit "model") c
    else mret tt.

(** Lines 51-58. *)
Definition attach (conversation_history : val) (attachment_b64 : option pystr) : M unit :=
  match attachment_b64 with
  | Some a =>
      if str_truthy a then
        nonempty ← list_truthy conversation_history;
        if (nonempty : bool) then
          last_user_message ← subscript_last conversation_history;
          parts ← subscript_key last_user_message "parts";
          inner ← alloc (ODict {[ "mime_type" := VStr (lit "image/png"); "data" := VStr a ]});
          outer ← alloc (ODict {[ "inline_data" := VRef inner ]});
          list_append parts (VRef outer)
        else mret tt
      else mret tt
  | None => mret tt
  end.

(** Lines 39-58: the payload builder. *)
Definition build_payload (messages : val) (language : pystr)
    (attachment_b64 : option pystr) : M val :=
  ch ← alloc (OList []);
  let conversation_history := VRef ch in
  append_turn conversation_history (lit "user") (VStr (system_prompt language));;
  append_turn conversation_history (lit "model") (VStr ack_text);;
  for_in messages (add_message conversation_history);;
  attach conversation_history attachment_b64;;
  mret conversation_history.

(** [model.start_chat(history=conversation_history)]: the session takes
    the history as it stands at the call.  The library converts each part
    on entry; a [None] part, which only a message stored without content
    would give, is outside what this step covers (the library rejects it),
    and the handler never stores such a message. *)
Definition start_chat (conversation_history : val) : M (list turn) := fun st =>
  match read_payload (heap st) conversation_history with
  | Some p => (Ok p, st)
  | None => (Stuck, st)
  end.

(** [chat.send_message(content, safety_settings=...)] *)
Definition send_message (chat : list turn) (content : val) : M (option response) :=
  emit (EvSend chat content);;
  match remote chat content with
  | CallRaises detail => raise (RemoteError detail)
  | CallReturns r => mret r
  end.

(** Lines 76-82.  [response.text] is read in the test of line 76; when the
    read raises, the exception leaves the [if] for the handler of line
    84. *)
Definition extract_reply (resp : option response) : M pystr :=
  match resp with
  | Some r =>
      match text r with
      | TextRaises detail => raise (ValueError detail)
      | TextIs (c :: t) => mret (c :: t)
      | TextIs [] =>
          match prompt_feedback r with
          | Some ratings =>
              emit (EvPrint (lit "Content was blocked. Safety ratings: " ++ ratings));;
              mret safety_apology
          | None => mret retry_message
          end
      end
  | None => mret retry_message
  end.

(** Lines 36-82: the body of the [try].  Making the model handle (line 36)
    and the chat session (line 69) is local; the safety settings are one
    more dict. *)
Definition get_medibot_reply_body (messages : val) (language : pystr)
    (attachment_b64 : option pystr) : M pystr :=
  conversation_history ← build_payload messages language attachment_b64;
  _ ← alloc (ODict safety_settings);
  chat ← start_chat conversation_history;
  last_message ← subscript_last messages;
  last_user_message_content ← dict_get last_message "content";
  resp ← send_message chat last_user_message_content;
  extract_reply resp.

Definition get_medibot_reply (messages : val) (language : pystr)
    (attachment_b64 : option pystr) : M pystr :=
  try_except (get_medibot_reply_body messages language attachment_b64)
    (fun e => emit (EvStError e);; mret internal_error).

(** Lines 106-107: a new session starts with an empty list. *)
Definition init_session : M val :=
  l ← alloc (OList []);
  mret (VRef l).

(** Lines 143-152: the submit handler, on the session's list [messages]. *)
Definition handle_submit (messages : val) (submitted : bool) (user_input : pystr)
    (attachment_b64 : option pystr) : M unit :=
  if submitted && str_truthy (strip user_input) then
    user_msg ← alloc (ODict {[ "role" := VStr (lit "user");
                               "content" := VStr (strip user_input) ]});
    list_append messages (VRef user_msg);;
    reply_text ← get_medibot_reply messages (lit "English") attachment_b64;
    bot_msg ← alloc (ODict {[ "role" := VStr (lit "assistant");
                              "content" := VStr reply_text ]});
    list_append messages (VRef bot_msg);;
    emit EvRerun
  else mret tt.

(** Streamlit runs the script once per interaction; the list in
    [st.session_state] is the same object across runs. *)
Fixpoint run_turns (messages : val)
    (turns : list (bool * pystr * option pystr)) : M unit :=
  match turns with
  | [] => mret tt
  | (submitted, user_input, attachment_b64) :: rest =>
      handle_submit messages submitted user_input attachment_b64;;
      run_turns messages rest
  end.

Definition session (turns : list (bool * pystr * option pystr)) : M val :=
  messages ← init_session;
  run_turns messages turns;;
  mret messages.

End MediBot.

(** ** What the builder leaves in the store

    Every turn the builder appends is two new objects: the parts list and,
    right after it, the dict that refers to it.  [conversation_history]
    itself is the first object the builder allocates. *)

Abbreviation raw_turn := (list N * list val)%type (only parsing).

Definition turn_dict (role : pystr) (parts_at : loc) : gmap string val :=
  {[ "role" := VStr role; "parts" := VRef parts_at ]}.

Fixpoint layout (base : loc) (ts : list raw_turn) : list obj :=
  match ts with
  | [] => []
  | (r, ps) :: ts' => OList ps :: ODict (turn_dict r base) :: layout (S (S base)) ts'
  end.

Fixpoint turn_refs (base : loc) (n : nat) : list val :=
  match n with
  | O => []
  | S n' => VRef (S base) :: turn_refs (S (S base)) n'
  end.

Definition built (h0 : list obj) (ts : list raw_turn) : list obj :=
  h0 ++ OList (turn_refs (S (length h0)) (length ts)) :: layout (S (length h0)) ts.

(** [m.get(k)] on the dict itself. *)
Definition get_field (d : gmap string val) (k : string) : val :=
  default VNone (d !! k).

(** The turn a message contributes, if any (lines 45-48). *)
Definition raw_of_message (d : gmap string val) : option raw_turn :=
  if bool_decide (get_field d "role" = VStr (lit "user")) then
    Some (lit "user", [get_field d "content"])
  else if bool_decide (get_field d "role" = VStr (lit "assistant")) then
    Some (lit "model", [get_field d "content"])
  else None.

Definition priming (language : pystr) : list raw_turn :=
  [ (lit "user", [VStr (system_prompt language)]);
    (lit "model", [VStr ack_text]) ].

Definition raw_history (language : pystr) (ds : list (gmap string val)) : list raw_turn :=
  priming language ++ omap raw_of_message ds.

Fixpoint alter_last {A} (f : A -> A) (l : list A) : list A :=
  match l with
  | [] => []
  | [x] => [f x]
  | x :: l' => x :: alter_last f l'
  end.

Definition inline_inner (a : pystr) : gmap string val :=
  {[ "mime_type" := VStr (lit "image/png"); "data" := VStr a ]}.

Definition inline_outer (inner : loc) : gmap string val :=
  {[ "inline_data" := VRef inner ]}.

Definition raw_add_part (v : val) (t : raw_turn) : raw_turn := (t.1, t.2 ++ [v]).

(** The test of line 51 on the attachment: neither [None] nor empty. *)
Definition attachment_present (attachment_b64 : option pystr) : bool :=
  match attachment_b64 with
  | Some a => str_truthy a
  | None => false
  end.

(** The store when the builder returns, started on store [h0]. *)
Definition heap_after_build (h0 : list obj) (language : pystr)
    (ds : list (gmap string val)) (attachment_b64 : option pystr) : list obj :=
  let ts := raw_history language ds in
  match attachment_b64 with
  | Some a =>
      if str_truthy a then
        let n := length (built h0 ts) in
        built h0 (alter_last (raw_add_part (VRef (S n))) ts)
          ++ [ODict (inline_inner a); ODict (inline_outer n)]
      else built h0 ts
  | None => built h0 ts
  end.

(** ** The payload as a value

    The same construction on values: the priming pair, one turn per message
    with role "user" or "assistant", the attachment on the last turn. *)

Definition part_of (v : val) : part :=
  match v with
  | VStr s => PText s
  | _ => PNull
  end.

Definition message_turn (d : gmap string val) : option turn :=
  if bool_decide (get_field d "role" = VStr (lit "user")) then
    Some (Turn (lit "user") [part_of (get_field d "content")])
  else if bool_decide (get_field d "role" = VStr (lit "assistant")) then
    Some (Turn (lit "model") [part_of (get_field d "content")])
  else None.

Definition priming_pair (language : pystr) : list turn :=
  [ Turn (lit "user") [PText (system_prompt language)];
    Turn (lit "model") [PText ack_text] ].

Definition add_part (p : part) (t : turn) : turn :=
  Turn (t_role t) (t_parts t ++ [p]).

Definition inline_png (a : pystr) : part := PInline (lit "image/png") a.

Definition payload_of (language : pystr) (ds : list (gmap string val))
    (attachment_b64 : option pystr) : list turn :=
  let ts := priming_pair language ++ omap message_turn ds in
  match attachment_b64 with
  | Some a => if str_truthy a then alter_last (add_part (inline_png a)) ts else ts
  | None => ts
  end.

(** A transcript message as the data model has it: its content is a string
    (or missing), not another object. *)
Definition is_prim (v : val) : bool :=
  match v with VRef _ => false | _ => true end.

Definition message_ok (d : gmap string val) : bool :=
  is_prim (get_field d "content").

(** The roles of the data model. *)
Definition is_user (d : gmap string val) : bool :=
  bool_decide (get_field d "role" = VStr (lit "user")).

Definition is_assistant (d : gmap string val) : bool :=
  bool_decide (get_field d "role" = VStr (lit "assistant")).

(** Strict alternation starting with user: user, assistant, user, ... *)
Fixpoint alternates (ds : list (gmap string val)) : bool :=
  match ds with
  | [] => true
  | u :: [] => is_user u
  | u :: a :: ds' => is_user u && is_assistant a && alternates ds'
  end.

(** After completed cycles the transcript is a sequence of user/assistant
    pairs. *)
Fixpoint paired (ds : list (gmap string val)) : bool :=
  match ds with
  | [] => true
  | u :: a :: ds' => is_user u && is_assistant a && paired ds'
  | _ => false
  end.

(** ** Definitions used to state the results *)

(** The list [refs] refers, element by element, to the dicts [ds]. *)
Definition messages_at (h : list obj) (refs : list val)
    (ds : list (gmap string val)) : Prop :=
  Forall2 (fun r d => exists l, r = VRef l /\ h !! l = Some (ODict d)) refs ds.

(** The turn a role and a parts list of the store read as. *)
Definition abs_turn (h : list obj) (t : raw_turn) : option turn :=
  parts ← mapM (read_part h) t.2;
  Some (Turn t.1 parts).

(** The display string for each outcome of the call (lines 76-86). *)
Definition reply_of (o : remote_outcome) : pystr :=
  match o with
  | CallRaises _ => internal_error
  | CallReturns None => retry_message
  | CallReturns (Some r) =>
      match text r with
      | TextRaises _ => internal_error
      | TextIs (c :: t) => c :: t
      | TextIs [] => match prompt_feedback r with
                     | Some _ => safety_apology
                     | None => retry_message
                     end
      end
  end.

(** What is printed or shown to the operator after the call. *)
Definition reply_events (o : remote_outcome) : list event :=
  match o with
  | CallRaises detail => [EvStError (RemoteError detail)]
  | CallReturns None => []
  | CallReturns (Some r) =>
      match text r with
      | TextRaises detail => [EvStError (ValueError detail)]
      | TextIs (c :: t) => []
      | TextIs [] =>
          match prompt_feedback r with
          | Some ratings =>
              [EvPrint (lit "Content was blocked. Safety ratings: " ++ ratings)]
          | None => []
          end
      end
  end.

(** The store when [get_medibot_reply] returns: one more dict, the safety
    settings. *)
Definition heap_after_reply (h0 : list obj) (language : pystr)
    (ds : list (gmap string val)) (att : option pystr) : list obj :=
  heap_after_build h0 language ds att ++ [ODict safety_settings].

(** The dicts of lines 144 and 149. *)
Definition user_message (user_input : pystr) : gmap string val :=
  {[ "role" := VStr (lit "user"); "content" := VStr (strip user_input) ]}.

Definition assistant_message (reply_text : pystr) : gmap string val :=
  {[ "role" := VStr (lit "assistant"); "content" := VStr reply_text ]}.

Definition is_inline (p : part) : bool :=
  match p with PInline _ _ => true | _ => false end.

Definition has_inline (t : turn) : bool := existsb is_inline (t_parts t).

(** The role name a transcript role is sent under. *)
Definition payload_role (d : gmap string val) : pystr :=
  if is_user d then lit "user" else lit "model".

Definition turn_matches (d : gmap string val) (t : turn) : Prop :=
  t_role t = payload_role d
  /\ head (t_parts t) = Some (part_of (get_field d "content")).

(** Every message of the transcript has a string (or no) content. *)
Definition transcript_ok (ds : list (gmap string val)) : bool :=
  forallb message_ok ds.

(** Every message of the transcript has role user or assistant. *)
Definition roles_ok (ds : list (gmap string val)) : bool :=
  forallb (fun d => is_user d || is_assistant d) ds.

(** A remote side that answers with the text it was sent. *)
Definition echo_remote : list turn -> val -> remote_outcome :=
  fun _ c => CallReturns (Some (Response (TextIs (default [] (as_str c))) None)).

(** A remote side whose reply was withheld for safety: it has prompt
    feedback and no part, so that reading its text raises. *)
Definition withheld_remote : list turn -> val -> remote_outcome :=
  fun _ _ =>
    CallReturns (Some (Response (TextRaises (lit "no valid Part")) (Some (lit "HIGH")))).

(** A remote side whose reply came back empty: no part and no prompt
    feedback. *)
Definition empty_remote : list turn -> val -> remote_outcome :=
  fun _ _ => CallReturns (Some (Response (TextRaises (lit "no valid Part")) None)).

(** A remote side whose call always raises. *)
Definition failing_remote : list turn -> val -> remote_outcome :=
  fun _ _ => CallRaises (lit "timeout").

(** A store holding a transcript of one completed cycle. *)
Definition demo_transcript : list (gmap string val) :=
  [user_message (lit "hi"); assistant_message (lit "hello")].

Definition demo_heap : list obj :=
  [OList [VRef 1; VRef 2];
   ODict (user_message (lit "hi"));
   ODict (assistant_message (lit "hello"))].

(** A store holding an empty transcript. *)
Definition empty_heap : list obj := [OList []].

(** A store as line 144 leaves it on a first turn: the user message is in
    the list and the reply is still to come. *)
Definition asked_transcript : list (gmap string val) := [user_message (lit "fever")].

Definition asked_heap : list obj :=
  [OList [VRef 1]; ODict (user_message (lit "fever"))].

(** ** [html.escape] and the chat bubbles (lines 113-124)

    [html.escape(s)], with its default [quote=True], is five [str.replace]
    calls one after the other, the ampersand first. *)

(** [s.replace(old, new)] for a one-character [old]. *)
Definition replace_char (old : N) (new : pystr) (s : pystr) : pystr :=
  concat ((fun c => if (c =? old)%N then new else [c]) <$> s).

Definition escape (s : pystr) : pystr :=
  let s := replace_char 38 (lit "&amp;") s in
  let s := replace_char 60 (lit "&lt;") s in
  let s := replace_char 62 (lit "&gt;") s in
  let s := replace_char 34 (lit "&quot;") s in
  replace_char 39 (lit "&#x27;") s.

(** [escape(v)] on a value: only a [str] has [replace]. *)
Definition escape_val (v : val) : M pystr :=
  match v with
  | VStr s => mret (escape s)
  | _ => raise AttributeError
  end.

(** [v.get(k, d)] *)
Definition dict_get_default (v : val) (k : string) (d : val) : M val :=
  match v with
  | VRef l =>
      o ← load l;
      match o with
      | ODict m => mret (default d (m !! k))
      | OList _ => raise AttributeError
      end
  | _ => raise AttributeError
  end.

Definition speech_balloon : pystr := [128172%N].
Definition robot_face : pystr := [129302%N].
Definition stethoscope : pystr := [129658%N].

(** The f-string of line 120. *)
Definition bubble_html (bubble_class role escaped : pystr) : pystr :=
  lit "<div class='chat-bubble " ++ bubble_class ++ lit "'><strong>" ++ role
    ++ lit ":</strong> " ++ escaped ++ lit "</div>".

(** ** [base64.b64encode] (line 133)

    Three bytes give four characters of the alphabet; one or two bytes left
    over give two or three characters and padding. *)

Definition b64_alphabet : pystr :=
  lit "ABCDEFGHIJKLMNOPQRSTUVWXYZabcdefghijklmnopqrstuvwxyz0123456789+/".

Definition b64_char (i : N) : N := default 0%N (b64_alphabet !! N.to_nat i).

Definition b64_pad : N := 61%N.

Fixpoint b64encode (bs : list N) : pystr :=
  match bs with
  | [] => []
  | [b1] =>
      [b64_char (b1 / 4); b64_char (b1 mod 4 * 16); b64_pad; b64_pad]%N
  | [b1; b2] =>
      [b64_char (b1 / 4); b64_char (b1 mod 4 * 16 + b2 / 16);
       b64_char (b2 mod 16 * 4); b64_pad]%N
  | b1 :: b2 :: b3 :: rest =>
      (b64_char (b1 / 4) :: b64_char (b1 mod 4 * 16 + b2 / 16)
       :: b64_char (b2 mod 16 * 4 + b3 / 64) :: b64_char (b3 mod 64)
       :: b64encode rest)%N
  end.

(** ** The page

    What the script draws, where, and what stops it.  The store and the
    trace of [get_medibot_reply] are the [core] of the page (the [st.error]
    of line 85 stays an event of that trace); the list held in
    [st.session_state.messages], once set, is [session_messages].  The
    widget calls themselves are taken not to raise. *)

Inductive place := Main | ChatCol | ControlCol | ChatForm.

Inductive widget :=
  | WError (text : pystr)
  | WPageConfig (page_title layout : pystr)
  | WMarkdown (body : pystr) (unsafe_allow_html : bool)
  | WTitle (text : pystr)
  | WColumns (spec : list N)
  | WInfo (text : pystr)
  | WFileUploader (label : pystr) (types : list pystr)
  | WSuccess (text : pystr)
  | WImage (image : list N) (width : N)
  | WTextInput (label : pystr)
  | WSubmitButton (label : pystr).

Record page := Page {
  core : state;
  screen : list (place * widget);
  session_messages : option val
}.

(** A page step ends normally, raises an exception, stops the script
    ([st.stop()], which no [except Exception] catches), or is not covered
    by the model. *)
Inductive outcome (A : Type) :=
  | Done (a : A)
  | Throws (e : exn)
  | Stops
  | Uncovered.
Arguments Done {A} a.
Arguments Throws {A} e.
Arguments Stops {A}.
Arguments Uncovered {A}.

Definition P (A : Type) : Type := page -> outcome A * page.

#[global] Instance P_ret : MRet P := fun A a pg => (Done a, pg).

#[global] Instance P_bind : MBind P := fun A B f m pg =>
  match m pg with
  | (Done a, pg') => f a pg'
  | (Throws e, pg') => (Throws e, pg')
  | (Stops, pg') => (Stops, pg')
  | (Uncovered, pg') => (Uncovered, pg')
  end.

(** A step on the store, as a step of the page. *)
Definition lift {A} (m : M A) : P A := fun pg =>
  match m (core pg) with
  | (Ok a, st) => (Done a, Page st (screen pg) (session_messages pg))
  | (Raise e, st) => (Throws e, Page st (screen pg) (session_messages pg))
  | (Stuck, st) => (Uncovered, Page st (screen pg) (session_messages pg))
  end.

Definition draw (where_ : place) (w : widget) : P unit := fun pg =>
  (Done tt, Page (core pg) (screen pg ++ [(where_, w)]) (session_messages pg)).

Definition st_stop {A} : P A := fun pg => (Stops, pg).

Definition throw {A} (e : exn) : P A := fun pg => (Throws e, pg).

Definition uncovered {A} : P A := fun pg => (Uncovered, pg).

(** [try: body except Exception as e: handler e] on the page. *)
Definition p_try_except {A} (body : P A) (handler : exn -> P A) : P A :=
  fun pg =>
    match body pg with
    | (Throws e, pg') => handler e pg'
    | r => r
    end.

(** [st.session_state.messages]: an attribute that may not be set yet. *)
Definition session_get : P val := fun pg =>
  match session_messages pg with
  | Some v => (Done v, pg)
  | None => (Throws AttributeError, pg)
  end.

Definition session_set (v : val) : P unit := fun pg =>
  (Done tt, Page (core pg) (screen pg) (Some v)).

(** [for x in v: body x] on the page, as [for_each] on the store. *)
Fixpoint p_for_each (fuel i : nat) (l : loc) (body : val -> P unit) : P unit :=
  match fuel with
  | O => uncovered
  | S fuel' =>
      o ← lift (load l);
      match o with
      | OList xs =>
          match xs !! i with
          | Some x => body x;; p_for_each fuel' (S i) l body
          | None => mret tt
          end
      | ODict _ => uncovered
      end
  end.

Definition p_for_in (v : val) (body : val -> P unit) : P unit :=
  match v with
  | VRef l =>
      o ← lift (load l);
      match o with
      | OList xs => p_for_each (S (length xs)) 0 l body
      | ODict _ => uncovered
      end
  | _ => uncovered
  end.

(** What the script is started with: the environment variable after
    [load_dotenv()], and whether [genai.configure] raises on a key (and
    with what message). *)
Record environment := Environment {
  apiKEY : option pystr;
  configure_error : pystr -> option pystr
}.

(** What the widgets return in one run of the script. *)
Record uploaded := Uploaded { file_type : pystr; file_data : list N }.

Record inputs := Inputs {
  in_file : option uploaded;
  in_text : pystr;
  in_submitted : bool
}.

Definition page_css : pystr :=
  nl ++
  lit "    <style>" ++
  nl ++
  lit "    .st-emotion-cache-183-f3p { margin: auto; width: 80%; }" ++
  nl ++
  lit "    .stTextInput, .stFileUploader { padding: 10px; }" ++
  nl ++
  lit "    .chat-bubble { padding: 12px; border-radius: 10px; margin: 8px 0; white-space: pre-wrap; overflow-wrap: break-word; }" ++
  nl ++
  lit "    .user-bubble { background-color: #d1e7dd; color: #155724; }" ++
  nl ++
  lit "    .assistant-bubble { background-color: #cce5ff; color: #004085; }" ++
  nl ++
  lit "    </style>" ++
  nl.

Definition key_missing_text : pystr :=
  lit "API key not found. Please set 'apiKEY' in your .env file.".

Definition no_messages_text : pystr :=
  lit "No messages yet. Start by typing your symptoms or uploading a report.".

(** Truth value of [os.getenv(...)]: [None] and the empty string are
    false. *)
Definition key_present (key : option pystr) : bool :=
  match key with
  | Some (_ :: _) => true
  | _ => false
  end.

(** [genai.configure(api_key=key)] *)
Definition genai_configure (env : environment) (key : option pystr) : P unit :=
  match key with
  | Some k =>
      match configure_error env k with
      | Some detail => throw (RemoteError detail)
      | None => mret tt
      end
  | None => uncovered
  end.

(** Lines 11-19.  The only exception the body can raise is the one of
    [genai.configure]; its text is what [f"{e}"] prints. *)
Definition configure (env : environment) : P unit :=
  p_try_except
    (let GEMINI_KEY := apiKEY env in
     (if negb (key_present GEMINI_KEY) then
        draw Main (WError key_missing_text);;
        st_stop
      else mret tt);;
     genai_configure env GEMINI_KEY)
    (fun e =>
       match e with
       | RemoteError detail =>
           draw Main (WError (lit "Error configuring Gemini API: " ++ detail));;
           st_stop
       | _ => uncovered
       end).

(** Lines 106-107. *)
Definition session_init : P unit := fun pg =>
  match session_messages pg with
  | Some _ => (Done tt, pg)
  | None => (messages ← lift init_session; session_set messages) pg
  end.

(** Lines 116-122: one bubble. *)
Definition draw_message (msg : val) : P unit :=
  r ← lift (dict_get msg "role");
  let role := if bool_decide (r = VStr (lit "user"))
              then speech_balloon ++ lit " You"
              else robot_face ++ lit " MediBot" in
  r' ← lift (dict_get msg "role");
  let bubble_class := if bool_decide (r' = VStr (lit "user"))
                      then lit "user-bubble"
                      else lit "assistant-bubble" in
  content ← lift (dict_get_default msg "content" (VStr []));
  escaped ← lift (escape_val content);
  draw ChatCol (WMarkdown (bubble_html bubble_class role escaped) true).

(** Lines 113-124. *)
Definition display : P unit :=
  messages ← session_get;
  nonempty ← lift (list_truthy messages);
  if (nonempty : bool) then
    messages' ← session_get;
    p_for_in messages' draw_message
  else draw ChatCol (WInfo no_messages_text).

(** Lines 127-135.  An [UploadedFile] is a true value whatever it holds.
    Drawing the picture (line 135) is the library's work and is taken to
    succeed, as for every widget: the step covers files the library can
    decode.  One it cannot decode, a file without bytes among them, makes
    line 135 raise and ends the run there. *)
Definition upload (uploaded_file : option uploaded) : P (option pystr) :=
  draw ControlCol (WMarkdown (lit "### Actions") false);;
  draw ControlCol (WFileUploader (lit "Upload medical image/report (optional)")
                     [lit "jpg"; lit "jpeg"; lit "png"; lit "webp"]);;
  match uploaded_file with
  | Some f =>
      let file_bytes := file_data f in
      let attachment_b64 := b64encode file_bytes in
      draw ControlCol (WSuccess (lit "File uploaded and attached."));;
      draw ControlCol (WImage file_bytes 200);;
      mret (Some attachment_b64)
  | None => mret None
  end.

Section Page.

Variable remote : list turn -> val -> remote_outcome.

(** Lines 143-152 on the page: the list is taken from the session state
    only when the submission is accepted. *)
Definition submit (user_input : pystr) (submitted : bool)
    (attachment_b64 : option pystr) : P unit :=
  if submitted && str_truthy (strip user_input) then
    messages ← session_get;
    lift (handle_submit remote messages submitted user_input attachment_b64)
  else mret tt.

(** The script, top to bottom. *)
Definition script (env : environment) (inp : inputs) : P unit :=
  configure env;;
  draw Main (WPageConfig (lit "MediBot") (lit "wide"));;
  draw Main (WMarkdown page_css true);;
  draw Main (WTitle (stethoscope ++ lit " MediBot: Your Health Assistant"));;
  draw Main (WMarkdown (lit "---") false);;
  session_init;;
  draw Main (WMarkdown (lit "## Conversation") false);;
  draw Main (WColumns [4; 1]%N);;
  display;;
  attachment_b64 ← upload (in_file inp);
  draw Main (WMarkdown (lit "---") false);;
  draw ChatForm (WTextInput (lit "Type your medical question or symptoms..."));;
  draw ChatForm (WSubmitButton (lit "Send"));;
  submit (in_text inp) (in_submitted inp) attachment_b64.

End Page.

(** The page a rerun starts from: the store and the session state stay,
    the screen is drawn anew. *)
Definition next_run (pg : page) : page :=
  Page (core pg) [] (session_messages pg).

(** A new browser session on a store [st]. *)
Definition new_page (st : state) : page := Page st [] None.

(** The bubble of a message dict, as lines 116-122 draw it. *)
Definition bubble_of (d : gmap string val) : option (place * widget) :=
  match default (VStr []) (d !! "content") with
  | VStr s =>
      Some (ChatCol,
            WMarkdown
              (bubble_html
                 (if is_user d then lit "user-bubble" else lit "assistant-bubble")
                 (if is_user d then speech_balloon ++ lit " You"
                  else robot_face ++ lit " MediBot")
                 (escape s)) true)
  | _ => None
  end.

(** The characters HTML markup is made of, apart from the ampersand. *)
Definition is_markup (c : N) : bool :=
  ((c =? 60) || (c =? 62) || (c =? 34) || (c =? 39))%N.

Definition is_accepted (turn_input : bool * pystr * option pystr) : bool :=
  turn_input.1.1 && str_truthy (strip turn_input.1.2).

Definition is_send (ev : event) : bool :=
  match ev with EvSend _ _ => true | _ => false end.

(** What [escape] makes of one character. *)
Definition escape_char (c : N) : pystr :=
  if (c =? 38)%N then lit "&amp;"
  else if (c =? 60)%N then lit "&lt;"
  else if (c =? 62)%N then lit "&gt;"
  else if (c =? 34)%N then lit "&quot;"
  else if (c =? 39)%N then lit "&#x27;"
  else [c].

(** A message whose content is a string, as every message the handler
    makes. *)
Definition has_text (d : gmap string val) : bool :=
  match d !! "content" with
  | Some (VStr _) => true
  | _ => false
  end.

Definition texts (ds : list (gmap string val)) : bool := forallb has_text ds.

(** The attachment line 133 makes of what the uploader returned. *)
Definition attachment_of (file : option uploaded) : option pystr :=
  (fun f => b64encode (file_data f)) <$> file.

(** The widgets of one run, in the order the script draws them, around the
    bubbles [bs]. *)
Definition header_widgets : list (place * widget) :=
  [ (Main, WPageConfig (lit "MediBot") (lit "wide"));
    (Main, WMarkdown page_css true);
    (Main, WTitle (stethoscope ++ lit " MediBot: Your Health Assistant"));
    (Main, WMarkdown (lit "---") false) ].

Definition transcript_widgets (bs : list (place * widget)) : list (place * widget) :=
  (Main, WMarkdown (lit "## Conversation") false)
  :: (Main, WColumns [4; 1]%N)
  :: match bs with
     | [] => [(ChatCol, WInfo no_messages_text)]
     | _ => bs
     end.

Definition upload_widgets (file : option uploaded) : list (place * widget) :=
  (ControlCol, WMarkdown (lit "### Actions") false)
  :: (ControlCol, WFileUploader (lit "Upload medical image/report (optional)")
                    [lit "jpg"; lit "jpeg"; lit "png"; lit "webp"])
  :: match file with
     | Some f => [ (ControlCol, WSuccess (lit "File uploaded and attached."));
                   (ControlCol, WImage (file_data f) 200) ]
     | None => []
     end.

Definition form_widgets : list (place * widget) :=
  [ (Main, WMarkdown (lit "---") false);
    (ChatForm, WTextInput (lit "Type your medical question or symptoms..."));
    (ChatForm, WSubmitButton (lit "Send")) ].

Definition page_widgets (bs : list (place * widget)) (file : option uploaded)
    : list (place * widget) :=
  header_widgets ++ transcript_widgets bs ++ upload_widgets file ++ form_widgets.

(** An environment with a key that [genai.configure] accepts. *)
Definition configured (env : environment) : bool :=
  match apiKEY env with
  | Some (c :: k) => match configure_error env (c :: k) with
                     | None => true
                     | Some _ => false
                     end
  | _ => false
  end.

(** A message with role user or assistant: the ones the builder sends. *)
Definition known_role (d : gmap string val) : bool := is_user d || is_assistant d.

Definition is_bubble (w : place * widget) : bool :=
  match w with
  | (ChatCol, WMarkdown _ true) => true
  | _ => false
  end.

(** Concrete inputs for runs. *)
Definition demo_env : environment :=
  Environment (Some (lit "k-123")) (fun _ => None).

Definition demo_page : page := Page (State demo_heap []) [] (Some (VRef 0)).

Definition idle : inputs := Inputs None [] false.

(** A byte string: every element below 256. *)
Definition is_bytes (bs : list N) : bool := forallb (fun b => (b <? 256)%N) bs.

(** A character base64 text is made of. *)
Definition is_b64_char (c : N) : bool :=
  bool_decide (c ∈ b64_alphabet) || (c =? b64_pad)%N.

(** How many messages a trace shows as sent to the remote side. *)
Fixpoint count_sends (tr : list event) : nat :=
  match tr with
  | [] => 0
  | ev :: tr' => (if is_send ev then 1 else 0) + count_sends tr'
  end.

(** How many of the runs' inputs the handler accepts (line 143). *)
Fixpoint count_accepted (turns : list (bool * pystr * option pystr)) : nat :=
  match turns with
  | [] => 0
  | t :: turns' => (if is_accepted t then 1 else 0) + count_accepted turns'
  end.

(** The part an attachment adds, if it is present. *)
Definition attachment_parts (attachment_b64 : option pystr) : list part :=
  match attachment_b64 with
  | Some a => if str_truthy a then [inline_png a] else []
  | None => []
  end.

(** The bubbles of a transcript. *)
Definition bubbles (ds : list (gmap string val)) : list (place * widget) :=
  omap bubble_of ds.

(** The position of a character in the base64 alphabet. *)
Definition b64_index (c : N) : option N :=
  (fun r => N.of_nat r.1) <$> list_find (fun x => x = c) b64_alphabet.

(** Decoding base64 text, as the receiver of the attachment does: four
    characters give three bytes, padding ends the text. *)
Fixpoint b64decode (s : pystr) : option (list N) :=
  match s with
  | [] => Some []
  | c1 :: c2 :: c3 :: c4 :: rest =>
      s1 ← b64_index c1;
      s2 ← b64_index c2;
      if (c3 =? b64_pad)%N then
        match rest with
        | [] => if (c4 =? b64_pad)%N then Some [s1 * 4 + s2 / 16]%N else None
        | _ => None
        end
      else
        s3 ← b64_index c3;
        if (c4 =? b64_pad)%N then
          match rest with
          | [] => Some [s1 * 4 + s2 / 16; s2 mod 16 * 16 + s3 / 4]%N
          | _ => None
          end
        else
          s4 ← b64_index c4;
          bs ← b64decode rest;
          Some (s1 * 4 + s2 / 16 :: s2 mod 16 * 16 + s3 / 4 :: s3 mod 4 * 64 + s4 :: bs)%N
  | _ => None
  end.

(** Runs of the script one after the other, each on the page the last left. *)
Fixpoint runs (remote : list turn -> val -> remote_outcome) (env : environment)
    (inps : list inputs) (pg : page) : outcome unit * page :=
  match inps with
  | [] => (Done tt, pg)
  | inp :: rest =>
      match script remote env inp pg with
      | (Done _, pg') => runs remote env rest (next_run pg')
      | r => r
      end
  end.

(** More concrete inputs. *)
Definition jpeg_upload : uploaded := Uploaded (lit "image/jpeg") [255; 216; 255; 224]%N.

(** A picture of one grey pixel, a complete PNG file of 67 bytes. *)
Definition png_upload : uploaded :=
  Uploaded (lit "image/png")
    [137; 80; 78; 71; 13; 10; 26; 10; 0; 0; 0; 13; 73; 72; 68; 82; 0; 0; 0; 1; 0; 0; 0;
     1; 8; 0; 0; 0; 0; 58; 126; 155; 85; 0; 0; 0; 10; 73; 68; 65; 84; 120; 218; 99; 96;
     0; 0; 0; 2; 0; 1; 229; 39; 222; 252; 0; 0; 0; 0; 73; 69; 78; 68; 174; 66; 96;
     130]%N.
Definition ask (file : option uploaded) : inputs := Inputs file (lit " and a cough ") true.

(** A page between runs: either no session list yet, or a list of
    user/assistant pairs with string contents. *)
Definition page_ok (pg : page) : Prop :=
  match session_messages pg with
  | None => True
  | Some v =>
      exists lm ds, v = VRef lm
        /\ read_messages (heap (core pg)) (VRef lm) = Some ds
        /\ texts ds = true /\ paired ds = true
  end.

(** A transcript with a message of another role in it. *)
Definition system_note : gmap string val :=
  {[ "role" := VStr (lit "system"); "content" := VStr (lit "note") ]}.

Definition noted_transcript : list (gmap string val) :=
  [user_message (lit "hi"); system_note; assistant_message (lit "hello")].

Definition noted_heap : list obj :=
  [OList [VRef 1; VRef 2; VRef 3];
   ODict (user_message (lit "hi"));
   ODict system_note;
   ODict (assistant_message (lit "hello"))].

Definition demo_turns : list (bool * pystr * option pystr) :=
  [ (true, lit "fever", None);
    (true, lit "   ", None);
    (false, lit "not sent", None);
    (true, lit " and a cough ", Some (lit "QUJD")) ].

Definition no_key_env : environment := Environment None (fun _ => None).

Definition refused_env : environment :=
  Environment (Some (lit "k-123")) (fun _ => Some (lit "invalid key")).

(** ** Running steps *)

Lemma bind_ok {A B} (m : M A) (f : A -> M B) st a st' :
  m st = (Ok a, st') -> (m ≫= f) st = f a st'.
Proof. intros H. unfold mbind, M_bind. by rewrite H. Qed.

Lemma bind_raise {A B} (m : M A) (f : A -> M B) st e st' :
  m st = (Raise e, st') -> (m ≫= f) st = (Raise e, st').
Proof. intros H. unfold mbind, M_bind. by rewrite H. Qed.

(** One step of a sequence: run the first computation with the given run
    lemma and continue with the rest. *)
Tactic Notation "run" uconstr(H) := rewrite (bind_ok _ _ _ _ _ H).

Lemma alloc_run o h tr :
  alloc o (State h tr) = (Ok (length h), State (h ++ [o]) tr).
Proof. reflexivity. Qed.

Lemma emit_run ev h tr :
  emit ev (State h tr) = (Ok tt, State h (tr ++ [ev])).
Proof. reflexivity. Qed.

Lemma load_run l o h tr :
  h !! l = Some o -> load l (State h tr) = (Ok o, State h tr).
Proof. intros H. unfold load. simpl. by rewrite H. Qed.

Lemma dict_get_run l d k h tr :
  h !! l = Some (ODict d) ->
  dict_get (VRef l) k (State h tr) = (Ok (get_field d k), State h tr).
Proof. intros H. unfold dict_get. by run (load_run _ _ _ _ H). Qed.

Lemma subscript_key_run l d k x h tr :
  h !! l = Some (ODict d) -> d !! k = Some x ->
  subscript_key (VRef l) k (State h tr) = (Ok x, State h tr).
Proof.
  intros H Hk. unfold subscript_key.
  run (load_run _ _ _ _ H). by rewrite Hk.
Qed.

Lemma subscript_last_run l xs x h tr :
  h !! l = Some (OList xs) -> last xs = Some x ->
  subscript_last (VRef l) (State h tr) = (Ok x, State h tr).
Proof.
  intros H Hx. unfold subscript_last.
  run (load_run _ _ _ _ H). by rewrite Hx.
Qed.

Lemma subscript_last_empty l h tr :
  h !! l = Some (OList []) ->
  subscript_last (VRef l) (State h tr) = (Raise IndexError, State h tr).
Proof.
  intros H. unfold subscript_last.
  by run (load_run _ _ _ _ H).
Qed.

Lemma list_append_run l xs x h tr :
  h !! l = Some (OList xs) ->
  list_append (VRef l) x (State h tr)
  = (Ok tt, State (<[l := OList (xs ++ [x])]> h) tr).
Proof.
  intros H. unfold list_append.
  by run (load_run _ _ _ _ H).
Qed.

Lemma list_truthy_run l xs h tr :
  h !! l = Some (OList xs) ->
  list_truthy (VRef l) (State h tr)
  = (Ok (match xs with [] => false | _ => true end), State h tr).
Proof.
  intros H. unfold list_truthy.
  by run (load_run _ _ _ _ H).
Qed.

(** ** The layout of built turns *)

Lemma length_layout base ts : length (layout base ts) = 2 * length ts.
Proof.
  revert base. induction ts as [|[r ps] ts IH]; intros base; simpl; [done|].
  rewrite IH. lia.
Qed.

Lemma length_turn_refs base n : length (turn_refs base n) = n.
Proof. revert base. induction n as [|n IH]; intros base; simpl; [done|]. by rewrite IH. Qed.

Lemma layout_app base ts1 ts2 :
  layout base (ts1 ++ ts2) = layout base ts1 ++ layout (base + 2 * length ts1) ts2.
Proof.
  revert base. induction ts1 as [|[r ps] ts1 IH]; intros base.
  - simpl. by rewrite Nat.add_0_r.
  - cbn [app layout length]. rewrite IH. replace (S (S base) + 2 * length ts1) with (base + 2 * S (length ts1)) by lia. done.
Qed.

Lemma turn_refs_snoc base n :
  turn_refs base (S n) = turn_refs base n ++ [VRef (S (base + 2 * n))].
Proof.
  revert base. induction n as [|n IH]; intros base.
  - simpl. by rewrite Nat.add_0_r.
  - change (turn_refs base (S (S n))) with (VRef (S base) :: turn_refs (S (S base)) (S n)).
    rewrite IH. cbn [turn_refs app].
    replace (S (S base) + 2 * n) with (base + 2 * S n) by lia. done.
Qed.

Lemma length_built h0 ts : length (built h0 ts) = S (length h0 + 2 * length ts).
Proof. unfold built. rewrite length_app. simpl. rewrite length_layout. lia. Qed.

Lemma built_snoc h0 ts r ps :
  built h0 (ts ++ [(r, ps)])
  = h0 ++ OList (turn_refs (S (length h0)) (length ts)
                 ++ [VRef (S (length (built h0 ts)))])
       :: layout (S (length h0)) ts
       ++ [OList ps; ODict (turn_dict r (length (built h0 ts)))].
Proof.
  unfold built at 1. rewrite length_app, Nat.add_1_r, turn_refs_snoc, layout_app.
  rewrite length_built. simpl. repeat f_equal; lia.
Qed.

Lemma built_lookup_history h0 ts :
  built h0 ts !! length h0 = Some (OList (turn_refs (S (length h0)) (length ts))).
Proof. unfold built. by rewrite list_lookup_middle. Qed.

Lemma built_lookup_old h0 ts l o : h0 !! l = Some o -> built h0 ts !! l = Some o.
Proof. intros H. unfold built. by apply lookup_app_l_Some. Qed.

Lemma insert_middle {A} (l1 l2 : list A) x y :
  <[length l1 := y]> (l1 ++ x :: l2) = l1 ++ y :: l2.
Proof.
  replace (length l1) with (length l1 + 0) at 1 by lia.
  by rewrite insert_app_r.
Qed.

Lemma append_turn_run h0 ts r c tr :
  append_turn (VRef (length h0)) r c (State (built h0 ts) tr)
  = (Ok tt, State (built h0 (ts ++ [(r, [c])])) tr).
Proof.
  unfold append_turn.
  run (alloc_run _ _ _).
  run (alloc_run _ _ _).
  erewrite list_append_run.
  2:{ rewrite <- app_assoc. unfold built. rewrite <- app_assoc. simpl.
      by rewrite list_lookup_middle. }
  f_equal. f_equal. rewrite built_snoc.
  unfold built. rewrite <- !app_assoc. simpl.
  rewrite insert_middle.
  rewrite ?length_app; cbn [length]; rewrite ?length_app; cbn [length].
  rewrite ?Nat.add_succ_r, ?Nat.add_0_r. reflexivity.
Qed.

(** ** The transcript in the store *)

Lemma read_messages_Some h lm ds :
  read_messages h (VRef lm) = Some ds <->
  exists refs, h !! lm = Some (OList refs) /\ messages_at h refs ds.
Proof.
  unfold read_messages, messages_at. simpl. split.
  - destruct (h !! lm) as [[d|refs]|] eqn:E; simpl; try done.
    intros H. exists refs. split; [done|].
    apply mapM_Some in H. eapply Forall2_impl; [exact H|].
    intros [| |l] d; simpl; try done.
    destruct (h !! l) as [[d'|]|] eqn:E'; simpl; try done.
    intros [= <-]. eauto.
  - intros (refs & -> & H). simpl. apply mapM_Some.
    eapply Forall2_impl; [exact H|].
    intros r d (l & -> & Hl). simpl. by rewrite Hl.
Qed.

Lemma messages_at_ext h ext refs ds :
  messages_at h refs ds -> messages_at (h ++ ext) refs ds.
Proof.
  intros H. eapply Forall2_impl; [exact H|].
  intros r d (l & -> & Hl). exists l. split; [done|]. by apply lookup_app_l_Some.
Qed.

Lemma add_message_run h0 ts l d tr :
  h0 !! l = Some (ODict d) ->
  add_message (VRef (length h0)) (VRef l) (State (built h0 ts) tr)
  = (Ok tt, State (built h0 (ts ++ omap raw_of_message [d])) tr).
Proof.
  intros Hl. pose proof (built_lookup_old h0 ts _ _ Hl) as Hb.
  unfold add_message.
  run (dict_get_run _ _ _ _ _ Hb).
  cbn [omap list_omap]. unfold raw_of_message.
  case_bool_decide.
  - run (dict_get_run _ _ _ _ _ Hb).
    apply append_turn_run.
  - run (dict_get_run _ _ _ _ _ Hb).
    case_bool_decide.
    + run (dict_get_run _ _ _ _ _ Hb).
      apply append_turn_run.
    + by rewrite app_nil_r.
Qed.

(** The loop over the messages ends within its budget, having appended the
    turns of the messages from index [i] on. *)
Lemma for_each_run h0 lm refs ds tr fuel : forall i ts,
  h0 !! lm = Some (OList refs) ->
  messages_at h0 refs ds ->
  length refs - i < fuel ->
  for_each fuel i lm (add_message (VRef (length h0))) (State (built h0 ts) tr)
  = (Ok tt, State (built h0 (ts ++ omap raw_of_message (drop i ds))) tr).
Proof.
  induction fuel as [|fuel IH]; intros i ts Hlm Hds Hfuel; [lia|].
  cbn [for_each].
  run (load_run _ _ _ _ (built_lookup_old h0 ts _ _ Hlm)).
  destruct (refs !! i) as [r|] eqn:Hr.
  - destruct (Forall2_lookup_l _ _ _ _ _ Hds Hr) as (d & Hd & l & -> & Hl).
    run (add_message_run h0 ts l d tr Hl).
    rewrite IH; [|done|done|].
    + rewrite <- app_assoc. rewrite (drop_S _ _ _ Hd).
      change (d :: drop (S i) ds) with ([d] ++ drop (S i) ds).
      by rewrite omap_app.
    + apply lookup_lt_Some in Hr. lia.
  - apply lookup_ge_None in Hr.
    rewrite drop_ge; [by rewrite app_nil_r|].
    rewrite <- (Forall2_length _ _ _ Hds). done.
Qed.

Lemma for_in_run h0 lm refs ds ts tr :
  h0 !! lm = Some (OList refs) ->
  messages_at h0 refs ds ->
  for_in (VRef lm) (add_message (VRef (length h0))) (State (built h0 ts) tr)
  = (Ok tt, State (built h0 (ts ++ omap raw_of_message ds)) tr).
Proof.
  intros Hlm Hds. unfold for_in.
  run (load_run _ _ _ _ (built_lookup_old h0 ts _ _ Hlm)).
  rewrite (for_each_run h0 lm refs ds tr _ 0 ts Hlm Hds); [done|lia].
Qed.

Lemma alter_last_snoc {A} (f : A -> A) (l : list A) x :
  alter_last f (l ++ [x]) = l ++ [f x].
Proof.
  induction l as [|y l IH]; [done|].
  cbn [app alter_last]. rewrite IH. by destruct l.
Qed.

Lemma length_alter_last {A} (f : A -> A) (l : list A) :
  length (alter_last f l) = length l.
Proof.
  induction l as [|y l IH]; [done|].
  destruct l; [done|]. cbn [alter_last length] in *. by rewrite IH.
Qed.

Lemma built_snoc_prefix h0 ts r :
  exists pre, length pre = length (built h0 ts) /\
    forall qs, built h0 (ts ++ [(r, qs)])
               = pre ++ [OList qs; ODict (turn_dict r (length (built h0 ts)))].
Proof.
  exists (h0 ++ OList (turn_refs (S (length h0)) (length ts)
                       ++ [VRef (S (length (built h0 ts)))])
             :: layout (S (length h0)) ts).
  split.
  - unfold built. rewrite !length_app. cbn [length]. lia.
  - intros qs. rewrite built_snoc. by rewrite <- app_assoc.
Qed.

Lemma turn_dict_parts r n : turn_dict r n !! "parts" = Some (VRef n).
Proof. reflexivity. Qed.

Lemma turn_dict_role r n : turn_dict r n !! "role" = Some (VStr r).
Proof. reflexivity. Qed.

(** Lines 51-58 on a history that already has turns: the new part lands in
    the parts list of the last turn, which is an object of the builder. *)
Lemma attach_run h0 ts a tr :
  ts <> [] -> str_truthy a = true ->
  attach (VRef (length h0)) (Some a) (State (built h0 ts) tr)
  = (Ok tt,
     State (built h0 (alter_last (raw_add_part (VRef (S (length (built h0 ts))))) ts)
              ++ [ODict (inline_inner a); ODict (inline_outer (length (built h0 ts)))])
           tr).
Proof.
  intros Hts Ha. unfold attach. rewrite Ha.
  run (list_truthy_run _ _ _ _ (built_lookup_history h0 ts)).
  destruct ts as [|t ts' _] using rev_ind; [done|]. destruct t as [r ps].
  match goal with
  | |- context [turn_refs ?b ?n] => destruct (turn_refs b n) as [|x xs] eqn:Hrefs
  end.
  { by rewrite length_app, Nat.add_1_r in Hrefs. }
  clear x xs Hrefs.
  destruct (built_snoc_prefix h0 ts' r) as (pre & Hpre & Hshape).
  set (n1 := length (built h0 ts')) in *.
  assert (Hhist : built h0 (ts' ++ [(r, ps)]) !! length h0
                  = Some (OList (turn_refs (S (length h0)) (length ts')
                                 ++ [VRef (S (S (length h0) + 2 * length ts'))]))).
  { rewrite built_lookup_history, length_app, Nat.add_1_r. by rewrite turn_refs_snoc. }
  rewrite (bind_ok _ _ _ _ _
             (subscript_last_run _ _ _ _ _ Hhist (last_snoc _ _))).
  assert (Hn1 : S (length h0) + 2 * length ts' = n1).
  { unfold n1. rewrite length_built. lia. }
  rewrite Hn1.
  assert (Hdict : built h0 (ts' ++ [(r, ps)]) !! S n1 = Some (ODict (turn_dict r n1))).
  { rewrite Hshape. rewrite lookup_app_r by lia.
    rewrite Hpre. by replace (S n1 - n1) with 1 by lia. }
  rewrite (bind_ok _ _ _ _ _
             (subscript_key_run _ _ _ _ _ _ Hdict (turn_dict_parts r n1))).
  run (alloc_run _ _ _).
  run (alloc_run _ _ _).
  erewrite list_append_run.
  2:{ rewrite Hshape, <- !app_assoc. cbn [app]. by apply list_lookup_middle. }
  rewrite alter_last_snoc. unfold raw_add_part. cbn [fst snd].
  rewrite !Hshape, <- !app_assoc. cbn [app].
  rewrite <- Hpre, insert_middle.
  rewrite !length_app. cbn [length]. rewrite !Nat.add_succ_r. reflexivity.
Qed.

Lemma raw_history_nonempty language ds : raw_history language ds <> [].
Proof. done. Qed.

(** The builder, run on a store that holds the transcript: it returns the
    location it allocated first, and the store is [heap_after_build]. *)
Lemma build_payload_run h0 lm refs ds language att tr :
  h0 !! lm = Some (OList refs) ->
  messages_at h0 refs ds ->
  build_payload (VRef lm) language att (State h0 tr)
  = (Ok (VRef (length h0)), State (heap_after_build h0 language ds att) tr).
Proof.
  intros Hlm Hds. unfold build_payload.
  run (alloc_run _ _ _).
  change (h0 ++ [OList []]) with (built h0 []).
  run (append_turn_run _ _ _ _ _).
  run (append_turn_run _ _ _ _ _).
  run (for_in_run _ _ _ _ _ _ Hlm Hds).
  change (([] ++ [(lit "user", [VStr (system_prompt language)])])
            ++ [(lit "model", [VStr ack_text])]) with (priming language).
  fold (raw_history language ds).
  unfold heap_after_build. destruct att as [a|].
  - destruct (str_truthy a) eqn:Ha.
    + by rewrite (bind_ok _ _ _ _ _
                    (attach_run _ _ _ _ (raw_history_nonempty language ds) Ha)).
    + unfold attach. by rewrite Ha.
  - done.
Qed.

(** ** Reading the built payload *)

Lemma read_layout h : forall ts pre post,
  h = pre ++ layout (length pre) ts ++ post ->
  mapM (read_turn h) (turn_refs (length pre) (length ts)) = mapM (abs_turn h) ts.
Proof.
  induction ts as [|[r ps] ts IH]; intros pre post Hh; [done|].
  cbn [length turn_refs layout mapM] in *.
  assert (Hparts : h !! length pre = Some (OList ps)).
  { rewrite Hh. by apply list_lookup_middle. }
  assert (Hdict : h !! S (length pre) = Some (ODict (turn_dict r (length pre)))).
  { rewrite Hh. rewrite lookup_app_r by lia.
    by replace (S (length pre) - length pre) with 1 by lia. }
  assert (Hturn : read_turn h (VRef (S (length pre))) = abs_turn h (r, ps)).
  { unfold read_turn, abs_turn. cbn [as_ref mbind option_bind fst snd].
    rewrite Hdict. cbn [mbind option_bind as_dict].
    rewrite turn_dict_role, turn_dict_parts. cbn [mbind option_bind as_str as_ref].
    rewrite Hparts. reflexivity. }
  rewrite Hturn.
  specialize (IH (pre ++ [OList ps; ODict (turn_dict r (length pre))]) post).
  rewrite length_app in IH. cbn [length] in IH.
  replace (length pre + 2) with (S (S (length pre))) in IH by lia.
  rewrite IH; [done|]. rewrite Hh, <- app_assoc. reflexivity.
Qed.

Lemma read_payload_built h0 ts ext :
  read_payload (built h0 ts ++ ext) (VRef (length h0))
  = mapM (abs_turn (built h0 ts ++ ext)) ts.
Proof.
  unfold read_payload. cbn [as_ref mbind option_bind].
  rewrite (lookup_app_l_Some _ _ _ _ (built_lookup_history h0 ts)).
  cbn [mbind option_bind as_list].
  replace (S (length h0))
    with (length (h0 ++ [OList (turn_refs (S (length h0)) (length ts))]))
    by (rewrite length_app; cbn [length]; lia).
  apply (read_layout _ ts _ ext).
  unfold built. rewrite length_app. cbn [length]. rewrite Nat.add_1_r.
  by rewrite <- !app_assoc.
Qed.

Lemma abs_turn_prim h r c :
  is_prim c = true -> abs_turn h (r, [c]) = Some (Turn r [part_of c]).
Proof. by destruct c. Qed.

Lemma abs_history h language ds :
  Forall (fun d => message_ok d = true) ds ->
  Forall2 (fun x y => abs_turn h x = Some y)
    (raw_history language ds) (priming_pair language ++ omap message_turn ds).
Proof.
  intros Hok. unfold raw_history, priming, priming_pair. cbn [app].
  do 2 (constructor; [done|]).
  induction Hok as [|d ds Hd _ IH]; [constructor|].
  cbn [omap list_omap]. unfold raw_of_message, message_turn.
  repeat case_bool_decide; try done.
  - constructor; [|done]. by apply abs_turn_prim.
  - constructor; [|done]. by apply abs_turn_prim.
Qed.

Lemma Forall2_alter_last {A B} (R : A -> B -> Prop) f g l k :
  Forall2 R l k ->
  (forall x y, R x y -> R (f x) (g y)) ->
  Forall2 R (alter_last f l) (alter_last g k).
Proof.
  intros H Hfg. induction H as [|x y l k Hxy Hlk IH]; [constructor|].
  destruct Hlk as [|x' y' l k Hxy' Hlk].
  - constructor; [by apply Hfg|constructor].
  - change (alter_last f (x :: x' :: l)) with (x :: alter_last f (x' :: l)).
    change (alter_last g (y :: y' :: k)) with (y :: alter_last g (y' :: k)).
    by constructor.
Qed.

Lemma read_part_inline h n a :
  h !! S n = Some (ODict (inline_outer n)) ->
  h !! n = Some (ODict (inline_inner a)) ->
  read_part h (VRef (S n)) = Some (inline_png a).
Proof.
  intros Houter Hinner. unfold read_part.
  rewrite Houter. cbn [mbind option_bind as_dict].
  change (inline_outer n !! "inline_data") with (Some (VRef n)).
  cbn [mbind option_bind as_ref]. rewrite Hinner. reflexivity.
Qed.

Lemma abs_turn_add_part h v p x y :
  read_part h v = Some p ->
  abs_turn h x = Some y ->
  abs_turn h (raw_add_part v x) = Some (add_part p y).
Proof.
  intros Hv. unfold abs_turn, raw_add_part, add_part. cbn [fst snd].
  destruct (mapM (read_part h) x.2) as [parts|] eqn:Hparts; [|done].
  intros [= <-]. cbn [mbind option_bind t_role t_parts].
  apply mapM_Some in Hparts.
  assert (Hall : mapM (read_part h) (x.2 ++ [v]) = Some (parts ++ [p])).
  { apply mapM_Some. apply Forall2_app; [done|]. by constructor. }
  by rewrite Hall.
Qed.

(** What the chat session is given: the store after the builder, with
    whatever was allocated since, reads as [payload_of]. *)
Lemma read_payload_after_build h0 language ds att ext :
  Forall (fun d => message_ok d = true) ds ->
  read_payload (heap_after_build h0 language ds att ++ ext) (VRef (length h0))
  = Some (payload_of language ds att).
Proof.
  intros Hok. unfold heap_after_build, payload_of.
  destruct att as [a|]; [destruct (str_truthy a) eqn:Ha|].
  - rewrite <- app_assoc. rewrite read_payload_built. apply mapM_Some.
    set (ts := raw_history language ds).
    set (n := length (built h0 ts)).
    set (h := built h0 _ ++ _).
    assert (Hlen : length (built h0 (alter_last (raw_add_part (VRef (S n))) ts)) = n).
    { unfold n. by rewrite !length_built, length_alter_last. }
    assert (Hinner : h !! n = Some (ODict (inline_inner a))).
    { unfold h. rewrite lookup_app_r by lia. by rewrite Hlen, Nat.sub_diag. }
    assert (Houter : h !! S n = Some (ODict (inline_outer n))).
    { unfold h. rewrite lookup_app_r by lia. rewrite Hlen.
      by replace (S n - n) with 1 by lia. }
    apply Forall2_alter_last; [by apply abs_history|].
    intros x y Hxy. apply abs_turn_add_part; [|done].
    by apply read_part_inline.
  - rewrite read_payload_built. apply mapM_Some. by apply abs_history.
  - rewrite read_payload_built. apply mapM_Some. by apply abs_history.
Qed.

(** ** The builder only adds to the store *)

Lemma heap_after_build_ext h0 language ds att :
  exists ext, heap_after_build h0 language ds att = h0 ++ ext.
Proof.
  unfold heap_after_build, built.
  destruct att as [a|]; [destruct (str_truthy a)|]; rewrite <- ?app_assoc; eauto.
Qed.

Lemma messages_at_last h refs ds d :
  messages_at h refs ds -> last ds = Some d ->
  exists l, last refs = Some (VRef l) /\ h !! l = Some (ODict d).
Proof.
  intros Hds Hd. apply last_Some in Hd as [ds' ->].
  apply Forall2_app_inv_r in Hds as (refs' & rs & _ & Hrs & ->).
  apply Forall2_cons_inv_r in Hrs as (r & rs' & (l & -> & Hl) & Hnil & ->).
  apply Forall2_nil_inv_r in Hnil as ->.
  exists l. by rewrite last_snoc.
Qed.

(** ** Running [get_medibot_reply] *)

Lemma heap_after_reply_ext h0 language ds att :
  exists ext, heap_after_reply h0 language ds att = h0 ++ ext.
Proof.
  unfold heap_after_reply.
  destruct (heap_after_build_ext h0 language ds att) as [ext ->].
  rewrite <- app_assoc. eauto.
Qed.

Section ReplyRuns.

Variable remote : list turn -> val -> remote_outcome.

(** Lines 76-86: reading the response under the handler of line 84. *)
Lemma extract_reply_run r h tr :
  try_except (extract_reply r)
    (fun e => emit (EvStError e);; mret internal_error) (State h tr)
  = (Ok (reply_of (CallReturns r)), State h (tr ++ reply_events (CallReturns r))).
Proof.
  unfold try_except, extract_reply, reply_of, reply_events.
  destruct r as [[[detail|[|c t]] [ratings|]]|]; cbn [text prompt_feedback];
    rewrite ?app_nil_r; try reflexivity.
Qed.

(** On a non-empty transcript the body reaches the call, with the payload
    of the whole transcript as history and the last message's content as
    the message sent. *)
Lemma get_medibot_reply_run h0 lm refs ds d language att tr :
  h0 !! lm = Some (OList refs) ->
  messages_at h0 refs ds ->
  Forall (fun d => message_ok d = true) ds ->
  last ds = Some d ->
  let p := payload_of language ds att in
  let c := get_field d "content" in
  get_medibot_reply remote (VRef lm) language att (State h0 tr)
  = (Ok (reply_of (remote p c)),
     State (heap_after_reply h0 language ds att)
           (tr ++ EvSend p c :: reply_events (remote p c))).
Proof.
  intros Hlm Hds Hok Hd p c.
  unfold get_medibot_reply, try_except, get_medibot_reply_body.
  run (build_payload_run _ _ _ _ _ _ _ Hlm Hds).
  run (alloc_run _ _ _).
  fold (heap_after_reply h0 language ds att).
  assert (Hchat : start_chat (VRef (length h0))
                    (State (heap_after_reply h0 language ds att) tr)
                  = (Ok p, State (heap_after_reply h0 language ds att) tr)).
  { unfold start_chat, heap_after_reply. cbn [heap].
    by rewrite read_payload_after_build. }
  run Hchat.
  destruct (heap_after_reply_ext h0 language ds att) as [ext Hext].
  destruct (messages_at_last _ _ _ _ Hds Hd) as (l & Hlast & Hl).
  assert (Hlm' : heap_after_reply h0 language ds att !! lm = Some (OList refs)).
  { rewrite Hext. by apply lookup_app_l_Some. }
  assert (Hl' : heap_after_reply h0 language ds att !! l = Some (ODict d)).
  { rewrite Hext. by apply lookup_app_l_Some. }
  run (subscript_last_run _ _ _ _ _ Hlm' Hlast).
  run (dict_get_run _ _ _ _ _ Hl').
  fold c. unfold send_message.
  unfold mbind at 1, M_bind at 1.
  run (emit_run _ _ _).
  destruct (remote p c) as [detail|r].
  - unfold raise. cbv beta iota.
    run (emit_run _ _ _).
    cbn [reply_of reply_events mret M_ret]. by rewrite <- app_assoc.
  - unfold mret at 1, M_ret at 1. cbv beta iota.
    pose proof (extract_reply_run r (heap_after_reply h0 language ds att)
                  (tr ++ [EvSend p c])) as Hx.
    unfold try_except in Hx. rewrite Hx. by rewrite <- app_assoc.
Qed.

(** On an empty transcript the builder runs to its end and [messages[-1]]
    raises before any message is sent. *)
Lemma get_medibot_reply_run_empty h0 lm language att tr :
  h0 !! lm = Some (OList []) ->
  get_medibot_reply remote (VRef lm) language att (State h0 tr)
  = (Ok internal_error,
     State (heap_after_reply h0 language [] att) (tr ++ [EvStError IndexError])).
Proof.
  intros Hlm.
  assert (Hds : messages_at h0 [] []) by constructor.
  unfold get_medibot_reply, try_except, get_medibot_reply_body.
  run (build_payload_run _ _ _ _ _ _ _ Hlm Hds).
  run (alloc_run _ _ _).
  fold (heap_after_reply h0 language [] att).
  assert (Hchat : start_chat (VRef (length h0))
                    (State (heap_after_reply h0 language [] att) tr)
                  = (Ok (payload_of language [] att),
                     State (heap_after_reply h0 language [] att) tr)).
  { unfold start_chat, heap_after_reply. cbn [heap].
    by rewrite read_payload_after_build. }
  run Hchat.
  destruct (heap_after_reply_ext h0 language [] att) as [ext Hext].
  assert (Hlm' : heap_after_reply h0 language [] att !! lm = Some (OList [])).
  { rewrite Hext. by apply lookup_app_l_Some. }
  rewrite (bind_raise _ _ _ _ _ (subscript_last_empty _ _ _ Hlm')).
  by run (emit_run _ _ _).
Qed.

End ReplyRuns.

(** ** The submit handler *)

(** Appending a new dict to the transcript list leaves the dicts already
    in it as they were. *)
Lemma messages_at_append h lm refs ds d :
  h !! lm = Some (OList refs) ->
  messages_at h refs ds ->
  let h' := <[lm := OList (refs ++ [VRef (length h)])]> (h ++ [ODict d]) in
  h' !! lm = Some (OList (refs ++ [VRef (length h)]))
  /\ messages_at h' (refs ++ [VRef (length h)]) (ds ++ [d]).
Proof.
  intros Hlm Hds h'. pose proof (lookup_lt_Some _ _ _ Hlm) as Hlt.
  split.
  - unfold h'. apply list_lookup_insert_eq. rewrite length_app. lia.
  - apply Forall2_app.
    + eapply Forall2_impl; [exact Hds|].
      intros r d' (l & -> & Hl). exists l. split; [done|].
      unfold h'. rewrite list_lookup_insert_ne by congruence.
      by apply lookup_app_l_Some.
    + constructor; [|constructor]. exists (length h). split; [done|].
      unfold h'. rewrite list_lookup_insert_ne by lia.
      by apply list_lookup_middle.
Qed.

Lemma message_ok_user user_input : message_ok (user_message user_input) = true.
Proof. reflexivity. Qed.

Lemma message_ok_assistant reply_text : message_ok (assistant_message reply_text) = true.
Proof. reflexivity. Qed.

Section HandlerRuns.

Variable remote : list turn -> val -> remote_outcome.

(** One accepted submission, from a store that holds the transcript [ds]. *)
Lemma handle_submit_run h lm refs ds user_input att tr :
  h !! lm = Some (OList refs) ->
  messages_at h refs ds ->
  Forall (fun d => message_ok d = true) ds ->
  str_truthy (strip user_input) = true ->
  let p := payload_of (lit "English") (ds ++ [user_message user_input]) att in
  let c := VStr (strip user_input) in
  exists h' refs',
    handle_submit remote (VRef lm) true user_input att (State h tr)
    = (Ok tt, State h' (tr ++ EvSend p c :: reply_events (remote p c) ++ [EvRerun]))
    /\ h' !! lm = Some (OList refs')
    /\ messages_at h' refs'
         (ds ++ [user_message user_input; assistant_message (reply_of (remote p c))]).
Proof.
  intros Hlm Hds Hok Hin p c.
  unfold handle_submit. rewrite Hin. cbn [andb].
  run (alloc_run _ _ _).
  fold (user_message user_input).
  rewrite (bind_ok _ _ _ _ _
             (list_append_run _ _ _ _ _ (lookup_app_l_Some _ _ _ _ Hlm))).
  destruct (messages_at_append h lm refs ds (user_message user_input) Hlm Hds)
    as [Hlm1 Hds1].
  set (h1 := <[lm := _]> (h ++ _)) in *.
  assert (Hok1 : Forall (fun d => message_ok d = true) (ds ++ [user_message user_input])).
  { apply Forall_app. split; [done|]. by constructor. }
  rewrite (bind_ok _ _ _ _ _
             (get_medibot_reply_run remote h1 lm _ _ (user_message user_input)
                (lit "English") att tr Hlm1 Hds1 Hok1 (last_snoc _ _))).
  change (get_field (user_message user_input) "content") with c. fold p.
  set (h2 := heap_after_reply h1 _ _ _).
  destruct (heap_after_reply_ext h1 (lit "English")
              (ds ++ [user_message user_input]) att) as [ext Hext].
  fold h2 in Hext.
  assert (Hlm2 : h2 !! lm = Some (OList (refs ++ [VRef (length h)]))).
  { rewrite Hext. by apply lookup_app_l_Some. }
  assert (Hds2 : messages_at h2 (refs ++ [VRef (length h)])
                   (ds ++ [user_message user_input])).
  { rewrite Hext. by apply messages_at_ext. }
  run (alloc_run _ _ _).
  fold (assistant_message (reply_of (remote p c))).
  rewrite (bind_ok _ _ _ _ _
             (list_append_run _ _ _ _ _ (lookup_app_l_Some _ _ _ _ Hlm2))).
  destruct (messages_at_append h2 lm _ _ (assistant_message (reply_of (remote p c)))
              Hlm2 Hds2) as [Hlm3 Hds3].
  rewrite emit_run. eexists _, _. split; [|split].
  - rewrite <- (app_assoc tr). reflexivity.
  - exact Hlm3.
  - by rewrite <- (app_assoc ds) in Hds3.
Qed.

(** A submission whose text strips to nothing, or no submission. *)
Lemma handle_submit_skip lm submitted user_input att st :
  submitted && str_truthy (strip user_input) = false ->
  handle_submit remote lm submitted user_input att st = (Ok tt, st).
Proof. intros H. unfold handle_submit. by rewrite H. Qed.

End HandlerRuns.

(** ** Stripping *)

Example py_isspace_sample :
  (fun c => py_isspace c)
    <$> [8; 9; 13; 14; 27; 28; 31; 32; 33; 133; 160; 5760;
         8191; 8192; 8202; 8203; 8232; 8233; 8239; 8287; 12288; 65279]%N
  = [false; true; true; false; false; true; true; true; false; true; true; true;
     false; true; true; false; true; true; true; true; true; false].
Proof. reflexivity. Qed.

Example strip_sample :
  strip ([32; 9]%N ++ lit "mild fever" ++ [160; 10; 12288]%N) = lit "mild fever".
Proof. reflexivity. Qed.

Lemma lstrip_all_space s :
  forallb py_isspace s = true -> lstrip s = [].
Proof.
  induction s as [|c s IH]; [done|]. cbn [forallb lstrip].
  intros [Hc Hs]%andb_true_iff. rewrite Hc. by apply IH.
Qed.

Lemma strip_all_space s :
  forallb py_isspace s = true -> strip s = [].
Proof. intros H. unfold strip, rstrip. by rewrite (lstrip_all_space s H). Qed.

Lemma lstrip_nil_inv s : lstrip s = [] -> forallb py_isspace s = true.
Proof.
  induction s as [|c s IH]; [done|]. cbn [forallb lstrip].
  destruct (py_isspace c); [exact IH|done].
Qed.

Lemma strip_nil_inv s : strip s = [] -> forallb py_isspace s = true.
Proof.
  unfold strip, rstrip. intros H.
  apply lstrip_nil_inv.
  apply (f_equal reverse) in H. rewrite reverse_involutive, reverse_nil in H.
  apply lstrip_nil_inv in H.
  destruct (lstrip s) as [|x l'] eqn:E; [done|].
  exfalso. clear -E H.
  assert (Hx : py_isspace x = false).
  { clear H. induction s as [|c s IH]; [done|]. cbn [lstrip] in E.
    destruct (py_isspace c) eqn:Hc; [by apply IH|]. by inversion E; subst. }
  rewrite reverse_cons, forallb_app in H. cbn [forallb] in H.
  rewrite Hx in H. by rewrite andb_false_r in H.
Qed.

Lemma paired_alternates ds : paired ds = true -> alternates ds = true.
Proof.
  revert ds. fix IH 1. intros [|u [|a ds]]; [done|done|].
  cbn [paired alternates]. intros [Hua Hds]%andb_true_iff.
  rewrite Hua. by apply IH.
Qed.

Lemma paired_app ds u a :
  paired ds = true -> is_user u = true -> is_assistant a = true ->
  paired (ds ++ [u; a]) = true.
Proof.
  revert ds. fix IH 1. intros [|u' [|a' ds]] Hds Hu Ha.
  - cbn. by rewrite Hu, Ha.
  - done.
  - cbn [paired app] in *. apply andb_true_iff in Hds as [Hua Hds].
    rewrite Hua. by apply IH.
Qed.

(** ** Properties of the payload *)

Lemma alter_last_id {A} (l : list A) : alter_last id l = l.
Proof.
  induction l as [|x l IH]; [done|]. destruct l; [done|].
  cbn [alter_last] in *. by rewrite IH.
Qed.

Lemma alter_last_app {A} (f : A -> A) (l k : list A) :
  k <> [] -> alter_last f (l ++ k) = l ++ alter_last f k.
Proof.
  intros Hk. induction l as [|x l IH]; [done|].
  cbn [app]. destruct (l ++ k) as [|y m] eqn:E.
  - destruct l, k; done.
  - cbn [alter_last]. cbn [alter_last] in IH. by rewrite IH.
Qed.

Lemma alter_last_inv {A} (f : A -> A) (l : list A) :
  l <> [] -> exists front x, l = front ++ [x] /\ alter_last f l = front ++ [f x].
Proof.
  intros Hl. destruct l as [|y l' _] using rev_ind; [done|].
  exists l', y. split; [done|]. apply alter_last_snoc.
Qed.

Lemma message_turn_no_inline ds :
  Forall (fun t => has_inline t = false) (omap message_turn ds).
Proof.
  induction ds as [|d ds IH]; [constructor|].
  cbn [omap list_omap]. unfold message_turn.
  repeat case_bool_decide; try done; constructor; try done.
  - unfold has_inline. cbn. by destruct (get_field d "content").
  - unfold has_inline. cbn. by destruct (get_field d "content").
Qed.

Lemma payload_no_attachment_no_inline language ds :
  Forall (fun t => has_inline t = false) (payload_of language ds None).
Proof.
  unfold payload_of, priming_pair. cbn [app].
  do 2 (constructor; [done|]). apply message_turn_no_inline.
Qed.

Lemma payload_attachment language ds a :
  str_truthy a = true ->
  exists front t,
    payload_of language ds None = front ++ [t]
    /\ payload_of language ds (Some a) = front ++ [add_part (inline_png a) t].
Proof.
  intros Ha. unfold payload_of. rewrite Ha.
  apply alter_last_inv. done.
Qed.

Lemma payload_falsy_attachment language ds att :
  attachment_present att = false ->
  payload_of language ds att = payload_of language ds None.
Proof.
  unfold payload_of, attachment_present. destruct att as [a|]; [|done].
  by intros ->.
Qed.

Lemma message_turn_matches d :
  is_user d || is_assistant d = true ->
  exists t, message_turn d = Some t /\ turn_matches d t.
Proof.
  unfold message_turn, turn_matches, payload_role, is_user, is_assistant.
  repeat case_bool_decide; try done; intros _; eexists; split; try reflexivity; done.
Qed.

Lemma message_turns_match ds :
  Forall (fun d => is_user d || is_assistant d = true) ds ->
  Forall2 turn_matches ds (omap message_turn ds).
Proof.
  induction 1 as [|d ds Hd _ IH]; [constructor|].
  cbn [omap list_omap].
  destruct (message_turn_matches d Hd) as (t & -> & Ht). by constructor.
Qed.

Lemma turn_matches_add_part p d t :
  turn_matches d t -> turn_matches d (add_part p t).
Proof.
  intros [Hr Hh]. split; [done|]. cbn [add_part t_parts].
  by destruct (t_parts t).
Qed.

Lemma payload_turns_match language ds att :
  Forall (fun d => is_user d || is_assistant d = true) ds ->
  Forall2 turn_matches ds (drop 2 (payload_of language ds att)).
Proof.
  intros Hroles. pose proof (message_turns_match ds Hroles) as Hm.
  unfold payload_of.
  destruct att as [a|]; [destruct (str_truthy a)|]; try exact Hm.
  destruct (omap message_turn ds) as [|t ts] eqn:E.
  - apply Forall2_nil_inv_r in Hm as ->. constructor.
  - rewrite alter_last_app by done. cbn [priming_pair app drop].
    rewrite <- (alter_last_id ds).
    apply Forall2_alter_last; [done|].
    intros d t'. apply turn_matches_add_part.
Qed.

Lemma payload_head language ds att :
  exists t2 rest,
    payload_of language ds att
    = Turn (lit "user") [PText (system_prompt language)] :: t2 :: rest
    /\ t_role t2 = lit "model"
    /\ head (t_parts t2) = Some (PText ack_text)
    /\ (attachment_present att = false \/ omap message_turn ds <> [] ->
        t2 = Turn (lit "model") [PText ack_text]).
Proof.
  unfold payload_of, attachment_present.
  destruct att as [a|]; [destruct (str_truthy a)|].
  2,3: eexists _, _; split; [reflexivity|]; by repeat split.
  destruct (omap message_turn ds) as [|t ts] eqn:E.
  - eexists _, _. split; [reflexivity|]. repeat split; try done.
    intros [?|?]; done.
  - rewrite alter_last_app by done. eexists _, _. split; [reflexivity|].
    by repeat split.
Qed.

(** ** Sessions: the script runs once per interaction on the same list *)

Section Session.

Variable remote : list turn -> val -> remote_outcome.

Lemma read_messages_intro h lm refs ds :
  h !! lm = Some (OList refs) -> messages_at h refs ds ->
  read_messages h (VRef lm) = Some ds.
Proof. intros. apply read_messages_Some. eauto. Qed.

Lemma is_user_user_message user_input : is_user (user_message user_input) = true.
Proof. reflexivity. Qed.

Lemma is_assistant_assistant_message reply_text :
  is_assistant (assistant_message reply_text) = true.
Proof. reflexivity. Qed.

Lemma run_turns_paired turns : forall h lm ds tr,
  read_messages h (VRef lm) = Some ds ->
  Forall (fun d => message_ok d = true) ds ->
  paired ds = true ->
  exists st' ds',
    run_turns remote (VRef lm) turns (State h tr) = (Ok tt, st')
    /\ read_messages (heap st') (VRef lm) = Some ds'
    /\ Forall (fun d => message_ok d = true) ds'
    /\ paired ds' = true.
Proof.
  induction turns as [|[[submitted user_input] att] turns IH];
    intros h lm ds tr Hread Hok Hp.
  - exists (State h tr), ds. by repeat split.
  - cbn [run_turns].
    destruct (submitted && str_truthy (strip user_input)) eqn:Hacc.
    + apply andb_true_iff in Hacc as [-> Hin].
      apply read_messages_Some in Hread as (refs & Hlm & Hds).
      destruct (handle_submit_run remote h lm refs ds user_input att tr
                  Hlm Hds Hok Hin) as (h' & refs' & Hrun & Hlm' & Hds').
      run Hrun.
      eapply IH.
      * eapply read_messages_intro; eauto.
      * apply Forall_app. split; [done|].
        repeat constructor.
      * by apply paired_app.
    + run (handle_submit_skip remote _ _ _ _ _ Hacc).
      by eapply IH.
Qed.

Lemma session_paired turns st :
  exists st' ds,
    session remote turns st = (Ok (VRef (length (heap st))), st')
    /\ read_messages (heap st') (VRef (length (heap st))) = Some ds
    /\ paired ds = true.
Proof.
  destruct st as [h tr]. unfold session, init_session.
  run (bind_ok _ _ _ _ _ (alloc_run _ _ _)).
  cbn [mret M_ret heap].
  destruct (run_turns_paired turns (h ++ [OList []]) (length h) [] tr)
    as (st' & ds' & Hrun & Hread & _ & Hp); try done.
  { unfold read_messages. cbn [as_ref mbind option_bind].
    by rewrite list_lookup_middle. }
  run Hrun. eauto.
Qed.

End Session.

(** ** Boolean hypotheses *)

Lemma forallb_Forall {A} (f : A -> bool) (l : list A) :
  forallb f l = true -> Forall (fun x => f x = true) l.
Proof.
  induction l as [|x l IH]; [constructor|].
  cbn [forallb]. intros [Hx Hl]%andb_true_iff. constructor; auto.
Qed.

Lemma texts_transcript_ok ds : texts ds = true -> transcript_ok ds = true.
Proof.
  unfold texts, transcript_ok. induction ds as [|d ds IH]; [done|].
  cbn [forallb]. intros [Hd Hds]%andb_true_iff. rewrite (IH Hds), andb_true_r.
  unfold has_text in Hd. unfold message_ok, get_field.
  by destruct (d !! "content") as [[| |]|].
Qed.

Lemma reply_of_nonempty o : reply_of o <> [].
Proof.
  destruct o as [detail|[[[detail|[|c t]] [ratings|]]|]]; cbn; discriminate.
Qed.

Lemma build_payload_reads h0 lm ds language att tr :
  read_messages h0 (VRef lm) = Some ds ->
  transcript_ok ds = true ->
  build_payload (VRef lm) language att (State h0 tr)
  = (Ok (VRef (length h0)), State (heap_after_build h0 language ds att) tr)
  /\ read_payload (heap_after_build h0 language ds att) (VRef (length h0))
     = Some (payload_of language ds att).
Proof.
  intros (refs & Hlm & Hds)%read_messages_Some Hok%forallb_Forall. split.
  - by eapply build_payload_run.
  - rewrite <- (app_nil_r (heap_after_build _ _ _ _)).
    by apply read_payload_after_build.
Qed.

Section Claims.

Variable remote : list turn -> val -> remote_outcome.

(** C1 (as amended).  An accepted submission runs to its end and appends
    exactly two messages to the transcript: a user message whose content is
    the submitted text stripped of leading and trailing whitespace, then one
    assistant message; a transcript of user/assistant pairs stays one, so it
    alternates strictly, starting with user.  The same holds after any
    number of interactions of a session that started empty. *)
Theorem accepted_turn_appends_pair :
  (forall h lm ds user_input att tr,
     read_messages h (VRef lm) = Some ds ->
     transcript_ok ds = true ->
     paired ds = true ->
     str_truthy (strip user_input) = true ->
     exists st' reply,
       handle_submit remote (VRef lm) true user_input att (State h tr) = (Ok tt, st')
       /\ read_messages (heap st') (VRef lm)
          = Some (ds ++ [user_message user_input; assistant_message reply])
       /\ paired (ds ++ [user_message user_input; assistant_message reply]) = true
       /\ alternates (ds ++ [user_message user_input; assistant_message reply]) = true)
  /\ (forall turns st,
        exists st' ds,
          session remote turns st = (Ok (VRef (length (heap st))), st')
          /\ read_messages (heap st') (VRef (length (heap st))) = Some ds
          /\ alternates ds = true).
Proof.
  split.
  - intros h lm ds user_input att tr (refs & Hlm & Hds)%read_messages_Some
      Hok%forallb_Forall Hp Hin.
    destruct (handle_submit_run remote h lm refs ds user_input att tr
                Hlm Hds Hok Hin) as (h' & refs' & Hrun & Hlm' & Hds').
    eexists _, _. split; [exact Hrun|]. cbn [heap].
    assert (Hp' : paired (ds ++ [user_message user_input;
                                 assistant_message
                                   (reply_of (remote
                                      (payload_of (lit "English")
                                         (ds ++ [user_message user_input]) att)
                                      (VStr (strip user_input))))]) = true).
    { by apply paired_app. }
    split; [|split].
    + by eapply read_messages_intro.
    + exact Hp'.
    + by apply paired_alternates.
  - intros turns st.
    destruct (session_paired remote turns st) as (st' & ds & Hrun & Hread & Hp).
    exists st', ds. repeat split; try done. by apply paired_alternates.
Qed.

(** C8.  When the submitted text is empty or only whitespace, the handler
    does nothing: the store (hence the transcript) and the trace are as
    before, so nothing was sent. *)
Theorem blank_input_is_noop messages submitted user_input att st :
  forallb py_isspace user_input = true ->
  handle_submit remote messages submitted user_input att st = (Ok tt, st).
Proof.
  intros Hblank. apply handle_submit_skip.
  rewrite (strip_all_space _ Hblank). by rewrite andb_false_r.
Qed.

(** C4.  When the call to the remote model raises during an accepted
    turn, the handler still ends normally, the error is shown to the
    operator, and the transcript gains the user message and an assistant
    message whose content is the fixed internal-error string: two more
    messages than before. *)
Theorem remote_failure_recovered h lm ds user_input att tr detail :
  read_messages h (VRef lm) = Some ds ->
  transcript_ok ds = true ->
  str_truthy (strip user_input) = true ->
  remote (payload_of (lit "English") (ds ++ [user_message user_input]) att)
         (VStr (strip user_input)) = CallRaises detail ->
  exists st' ds',
    handle_submit remote (VRef lm) true user_input att (State h tr) = (Ok tt, st')
    /\ read_messages (heap st') (VRef lm) = Some ds'
    /\ ds' = ds ++ [user_message user_input; assistant_message internal_error]
    /\ length ds' = length ds + 2
    /\ trace st'
       = tr ++ [EvSend (payload_of (lit "English") (ds ++ [user_message user_input]) att)
                       (VStr (strip user_input));
                EvStError (RemoteError detail); EvRerun].
Proof.
  intros (refs & Hlm & Hds)%read_messages_Some Hok%forallb_Forall Hin Hfail.
  destruct (handle_submit_run remote h lm refs ds user_input att tr
              Hlm Hds Hok Hin) as (h' & refs' & Hrun & Hlm' & Hds').
  rewrite Hfail in Hrun, Hds'. cbn [reply_of reply_events app] in Hrun, Hds'.
  eexists _, _. split; [exact Hrun|]. cbn [heap trace].
  split; [by eapply read_messages_intro|].
  split; [done|]. split; [|done].
  rewrite length_app. cbn [length]. lia.
Qed.

(** C3.  On a transcript of string contents with a last message,
    [get_medibot_reply] ends normally with a non-empty display string
    whatever the remote side does, by the first case that applies: the
    fixed internal-error message when the call raised; the fixed retry
    message for a false response; the fixed internal-error message again,
    with the error shown to the operator, when reading [response.text]
    raises, as it does on a reply that holds no part, prompt feedback or
    not: lines 79-82 are not reached then, so such a reply gets neither the
    safety apology nor the retry message; the text itself when it reads as
    a non-empty string; and, when the text reads as the empty string, the
    fixed safety apology with prompt feedback and the fixed retry message
    without. *)
Theorem reply_extraction_by_outcome h0 lm ds d language att tr :
  read_messages h0 (VRef lm) = Some ds ->
  texts ds = true ->
  last ds = Some d ->
  let p := payload_of language ds att in
  let c := get_field d "content" in
  exists s st',
    get_medibot_reply remote (VRef lm) language att (State h0 tr) = (Ok s, st')
    /\ s <> []
    /\ (forall detail, remote p c = CallRaises detail -> s = internal_error)
    /\ (remote p c = CallReturns None -> s = retry_message)
    /\ (forall r detail,
          remote p c = CallReturns (Some r) -> text r = TextRaises detail ->
          s = internal_error
          /\ s <> safety_apology
          /\ s <> retry_message
          /\ trace st' = tr ++ [EvSend p c; EvStError (ValueError detail)])
    /\ (forall r a t,
          remote p c = CallReturns (Some r) -> text r = TextIs (a :: t) -> s = a :: t)
    /\ (forall r ratings,
          remote p c = CallReturns (Some r) -> text r = TextIs [] ->
          prompt_feedback r = Some ratings -> s = safety_apology)
    /\ (forall r,
          remote p c = CallReturns (Some r) -> text r = TextIs [] ->
          prompt_feedback r = None -> s = retry_message).
Proof.
  intros (refs & Hlm & Hds)%read_messages_Some Hok%texts_transcript_ok%forallb_Forall
    Hd p c.
  eexists _, _. split.
  { by eapply get_medibot_reply_run. }
  fold p c. cbn [trace]. split; [apply reply_of_nonempty|].
  split; [by intros detail ->|]. split; [by intros ->|].
  split; [|split; [|split]].
  - intros r detail -> Ht. cbn [reply_of reply_events]. rewrite Ht.
    repeat split; by vm_compute.
  - intros r a t -> Ht. cbn [reply_of]. by rewrite Ht.
  - intros r ratings -> Ht Hfb. cbn [reply_of]. by rewrite Ht, Hfb.
  - intros r -> Ht Hfb. cbn [reply_of]. by rewrite Ht, Hfb.
Qed.

(** C10.  On an empty message list [get_medibot_reply] does not raise:
    [messages[-1]] raises [IndexError] inside the [try], the handler shows
    it to the operator and the fixed internal-error string is returned;
    nothing was sent. *)
Theorem empty_messages_internal_error h0 lm language att tr :
  read_messages h0 (VRef lm) = Some [] ->
  exists st',
    get_medibot_reply remote (VRef lm) language att (State h0 tr)
    = (Ok internal_error, st')
    /\ trace st' = tr ++ [EvStError IndexError].
Proof.
  intros (refs & Hlm & Hds)%read_messages_Some.
  apply Forall2_nil_inv_r in Hds as ->.
  eexists. split; [by apply get_medibot_reply_run_empty|done].
Qed.

End Claims.

(** C2 (as amended).  With an attachment and an empty transcript the
    builder signals nothing: it returns its payload normally and emits
    nothing.  [get_medibot_reply] then fails at [messages[-1]], inside its
    own [try]: it sends nothing, shows the [IndexError] to the operator,
    returns the fixed internal-error string, and the transcript is still
    empty. *)
Theorem empty_transcript_attachment_reply
    (remote : list turn -> val -> remote_outcome) h0 lm language att tr :
  read_messages h0 (VRef lm) = Some [] ->
  attachment_present att = true ->
  (exists st1,
     build_payload (VRef lm) language att (State h0 tr) = (Ok (VRef (length h0)), st1)
     /\ trace st1 = tr)
  /\ (exists st2,
        get_medibot_reply remote (VRef lm) language att (State h0 tr)
        = (Ok internal_error, st2)
        /\ trace st2 = tr ++ [EvStError IndexError]
        /\ read_messages (heap st2) (VRef lm) = Some []).
Proof.
  intros Hread _. split.
  - destruct (build_payload_reads h0 lm [] language att tr Hread eq_refl) as [Hrun _].
    eexists. split; [exact Hrun|done].
  - apply read_messages_Some in Hread as (refs & Hlm & Hds).
    apply Forall2_nil_inv_r in Hds as ->.
    eexists. split; [by apply get_medibot_reply_run_empty|].
    cbn [heap trace]. split; [done|].
    destruct (heap_after_reply_ext h0 language [] att) as [ext ->].
    eapply read_messages_intro.
    + by apply lookup_app_l_Some.
    + constructor.
Qed.

(** C5.  Whatever the language and the transcript, the payload the builder
    leaves starts with a "user" turn whose only part is the directive
    rendered for that language, followed by a "model" turn whose first part
    is the fixed acknowledgment.  That second turn has no other part unless
    an attachment is present and no message contributed a turn. *)
Theorem payload_starts_with_priming_pair h0 lm ds language att tr :
  read_messages h0 (VRef lm) = Some ds ->
  transcript_ok ds = true ->
  exists ch st' t2 rest,
    build_payload (VRef lm) language att (State h0 tr) = (Ok ch, st')
    /\ read_payload (heap st') ch
       = Some (Turn (lit "user") [PText (prompt_head ++ language ++ prompt_tail)]
               :: t2 :: rest)
    /\ t_role t2 = lit "model"
    /\ head (t_parts t2) = Some (PText ack_text)
    /\ (attachment_present att = false \/ omap message_turn ds <> [] ->
        t2 = Turn (lit "model") [PText ack_text]).
Proof.
  intros Hread Hok.
  destruct (build_payload_reads h0 lm ds language att tr Hread Hok) as [Hrun Hpay].
  destruct (payload_head language ds att) as (t2 & rest & Hp & Hrole & Hhead & Hexact).
  exists (VRef (length h0)), (State (heap_after_build h0 language ds att) tr), t2, rest.
  split; [exact Hrun|]. cbn [heap]. rewrite Hpay, Hp. by repeat split.
Qed.

(** C6.  With an attachment present, the payload is the payload built
    without it, except that the last turn has one more part at its end: the
    inline data, MIME type image/png, carrying the base64 text as given.
    No turn of the payload built without it has an inline part, so no
    earlier turn carries one. *)
Theorem attachment_on_last_turn_only h0 lm ds language a tr :
  read_messages h0 (VRef lm) = Some ds ->
  transcript_ok ds = true ->
  str_truthy a = true ->
  exists ch st' ch0 st0 front t,
    build_payload (VRef lm) language (Some a) (State h0 tr) = (Ok ch, st')
    /\ build_payload (VRef lm) language None (State h0 tr) = (Ok ch0, st0)
    /\ read_payload (heap st0) ch0 = Some (front ++ [t])
    /\ read_payload (heap st') ch
       = Some (front ++ [Turn (t_role t) (t_parts t ++ [PInline (lit "image/png") a])])
    /\ Forall (fun t' => has_inline t' = false) (front ++ [t]).
Proof.
  intros Hread Hok Ha.
  destruct (build_payload_reads h0 lm ds language (Some a) tr Hread Hok) as [Hrun Hpay].
  destruct (build_payload_reads h0 lm ds language None tr Hread Hok) as [Hrun0 Hpay0].
  destruct (payload_attachment language ds a Ha) as (front & t & Hp0 & Hp).
  eexists _, _, _, _, front, t.
  split; [exact Hrun|]. split; [exact Hrun0|]. cbn [heap].
  rewrite Hpay, Hpay0, Hp, Hp0. repeat split.
  rewrite <- Hp0. apply payload_no_attachment_no_inline.
Qed.

(** C7.  When every message has role user or assistant, the payload after
    its first two turns has exactly one turn per message, in order: role
    "user" for a user message and "model" for an assistant message, with the
    message's content as first part. *)
Theorem payload_turn_per_message h0 lm ds language att tr :
  read_messages h0 (VRef lm) = Some ds ->
  transcript_ok ds = true ->
  roles_ok ds = true ->
  exists ch st' p,
    build_payload (VRef lm) language att (State h0 tr) = (Ok ch, st')
    /\ read_payload (heap st') ch = Some p
    /\ length p = 2 + length ds
    /\ Forall2 turn_matches ds (drop 2 p).
Proof.
  intros Hread Hok Hroles%forallb_Forall.
  destruct (build_payload_reads h0 lm ds language att tr Hread Hok) as [Hrun Hpay].
  pose proof (payload_turns_match language ds att Hroles) as Hm.
  eexists _, _, _. split; [exact Hrun|]. split; [exact Hpay|].
  split; [|exact Hm].
  apply Forall2_length in Hm. rewrite length_drop in Hm.
  destruct (payload_head language ds att) as (t2 & rest & Hp & _).
  rewrite Hp in *. cbn [length] in *. lia.
Qed.

(** C9.  The builder changes no object that existed before it ran: the
    payload is a new object, every old location holds what it held, and the
    transcript reads as before.  The same holds for the store when
    [get_medibot_reply] returns, with or without an attachment, so the
    attachment is in no transcript message. *)
Theorem build_leaves_transcript_unchanged
    (remote : list turn -> val -> remote_outcome) h0 lm ds language att tr :
  read_messages h0 (VRef lm) = Some ds ->
  transcript_ok ds = true ->
  (exists st',
     build_payload (VRef lm) language att (State h0 tr) = (Ok (VRef (length h0)), st')
     /\ h0 !! length h0 = None
     /\ (forall l o, h0 !! l = Some o -> heap st' !! l = Some o)
     /\ read_messages (heap st') (VRef lm) = Some ds)
  /\ (exists s st',
        get_medibot_reply remote (VRef lm) language att (State h0 tr) = (Ok s, st')
        /\ (forall l o, h0 !! l = Some o -> heap st' !! l = Some o)
        /\ read_messages (heap st') (VRef lm) = Some ds).
Proof.
  intros Hread Hok.
  destruct (build_payload_reads h0 lm ds language att tr Hread Hok) as [Hrun _].
  apply read_messages_Some in Hread as (refs & Hlm & Hds).
  split.
  - eexists. split; [exact Hrun|]. cbn [heap].
    destruct (heap_after_build_ext h0 language ds att) as [ext ->].
    split; [by apply lookup_ge_None_2|]. split.
    + intros l o Hl. by apply lookup_app_l_Some.
    + eapply read_messages_intro; [by apply lookup_app_l_Some|].
      by apply messages_at_ext.
  - destruct (heap_after_reply_ext h0 language ds att) as [ext Hext].
    assert (Hframe : forall l o, h0 !! l = Some o ->
                       heap_after_reply h0 language ds att !! l = Some o).
    { intros l o Hl. rewrite Hext. by apply lookup_app_l_Some. }
    assert (Hsame : read_messages (heap_after_reply h0 language ds att) (VRef lm)
                    = Some ds).
    { rewrite Hext. eapply read_messages_intro; [by apply lookup_app_l_Some|].
      by apply messages_at_ext. }
    destruct (last ds) as [d|] eqn:Hd.
    + eexists _, _. split.
      { eapply get_medibot_reply_run; eauto. by apply forallb_Forall. }
      by split.
    + apply last_None in Hd as ->. apply Forall2_nil_inv_r in Hds as ->.
      eexists _, _. split; [by apply get_medibot_reply_run_empty|].
      by split.
Qed.

(** ** Concrete runs *)

Lemma accepted_turn_appends_pair_witness :
  exists st' reply,
    handle_submit echo_remote (VRef 0) true (lit " more ") None (State demo_heap [])
    = (Ok tt, st')
    /\ read_messages (heap st') (VRef 0)
       = Some (demo_transcript ++ [user_message (lit " more "); assistant_message reply])
    /\ paired (demo_transcript
               ++ [user_message (lit " more "); assistant_message reply]) = true
    /\ alternates (demo_transcript
                   ++ [user_message (lit " more "); assistant_message reply]) = true.
Proof.
  apply (proj1 (accepted_turn_appends_pair echo_remote)); vm_compute; reflexivity.
Defined.

(** C1 as stated fails: the text " hi " is accepted, and the user message
    stored has content "hi", not the text submitted. *)
Lemma stored_text_is_stripped :
  let r := handle_submit failing_remote (VRef 0) true (lit " hi ") None
             (State empty_heap []) in
  r.1 = Ok tt
  /\ read_messages (heap r.2) (VRef 0)
     = Some [ {[ "role" := VStr (lit "user"); "content" := VStr (lit "hi") ]};
              {[ "role" := VStr (lit "assistant"); "content" := VStr internal_error ]} ]
  /\ VStr (lit "hi") <> VStr (lit " hi ").
Proof. vm_compute. repeat split. discriminate. Qed.

Lemma blank_input_is_noop_witness :
  handle_submit echo_remote (VRef 0) true (lit "   ") (Some (lit "QUJD"))
    (State demo_heap [])
  = (Ok tt, State demo_heap []).
Proof. apply blank_input_is_noop. vm_compute. reflexivity. Defined.

Lemma remote_failure_recovered_witness :
  exists st' ds',
    handle_submit failing_remote (VRef 0) true (lit "fever") None (State demo_heap [])
    = (Ok tt, st')
    /\ read_messages (heap st') (VRef 0) = Some ds'
    /\ ds' = demo_transcript
             ++ [user_message (lit "fever"); assistant_message internal_error]
    /\ length ds' = length demo_transcript + 2
    /\ trace st'
       = [] ++ [EvSend (payload_of (lit "English")
                          (demo_transcript ++ [user_message (lit "fever")]) None)
                       (VStr (strip (lit "fever")));
                EvStError (RemoteError (lit "timeout")); EvRerun].
Proof.
  apply (remote_failure_recovered failing_remote demo_heap 0 demo_transcript
           (lit "fever") None [] (lit "timeout")); vm_compute; reflexivity.
Defined.

Lemma reply_extraction_by_outcome_witness :
  exists st',
    get_medibot_reply withheld_remote (VRef 0) (lit "English") None (State asked_heap [])
    = (Ok internal_error, st')
    /\ internal_error <> safety_apology
    /\ trace st'
       = [] ++ [EvSend (payload_of (lit "English") asked_transcript None)
                       (VStr (lit "fever"));
                EvStError (ValueError (lit "no valid Part"))].
Proof.
  destruct (reply_extraction_by_outcome withheld_remote asked_heap 0 asked_transcript
              (user_message (lit "fever")) (lit "English") None [])
    as (s & st' & Hrun & _ & _ & _ & Hraise & _); [vm_compute; reflexivity..|].
  destruct (Hraise _ _ eq_refl eq_refl) as (Hs & Hne & _ & Htr).
  exists st'. rewrite <- Hs. split; [exact Hrun|]. split; [exact Hne|exact Htr].
Defined.

Lemma empty_messages_internal_error_witness :
  exists st',
    get_medibot_reply echo_remote (VRef 0) (lit "English") None (State empty_heap [])
    = (Ok internal_error, st')
    /\ trace st' = [] ++ [EvStError IndexError].
Proof.
  apply (empty_messages_internal_error echo_remote empty_heap 0 (lit "English") None []).
  vm_compute. reflexivity.
Defined.

Lemma empty_transcript_attachment_reply_witness :
  (exists st1,
     build_payload (VRef 0) (lit "English") (Some (lit "QUJD")) (State empty_heap [])
     = (Ok (VRef (length empty_heap)), st1)
     /\ trace st1 = [])
  /\ (exists st2,
        get_medibot_reply echo_remote (VRef 0) (lit "English") (Some (lit "QUJD"))
          (State empty_heap [])
        = (Ok internal_error, st2)
        /\ trace st2 = [] ++ [EvStError IndexError]
        /\ read_messages (heap st2) (VRef 0) = Some []).
Proof.
  apply (empty_transcript_attachment_reply echo_remote empty_heap 0 (lit "English")
           (Some (lit "QUJD")) []); vm_compute; reflexivity.
Defined.

(** C2 as stated fails: on an empty transcript with an attachment the
    builder ends normally, and the payload it leaves has the inline data on
    the acknowledgment turn. *)
Lemma builder_accepts_attachment_on_empty_transcript :
  let r := build_payload (VRef 0) (lit "English") (Some (lit "QUJD"))
             (State empty_heap []) in
  r.1 = Ok (VRef 1)
  /\ read_payload (heap r.2) (VRef 1)
     = Some [ Turn (lit "user") [PText (system_prompt (lit "English"))];
              Turn (lit "model") [PText ack_text; PInline (lit "image/png") (lit "QUJD")] ].
Proof. vm_compute. by split. Qed.

Lemma payload_starts_with_priming_pair_witness :
  exists ch st' t2 rest,
    build_payload (VRef 0) (lit "Telugu") None (State demo_heap []) = (Ok ch, st')
    /\ read_payload (heap st') ch
       = Some (Turn (lit "user") [PText (prompt_head ++ lit "Telugu" ++ prompt_tail)]
               :: t2 :: rest)
    /\ t_role t2 = lit "model"
    /\ head (t_parts t2) = Some (PText ack_text)
    /\ (attachment_present None = false \/ omap message_turn demo_transcript <> [] ->
        t2 = Turn (lit "model") [PText ack_text]).
Proof.
  apply (payload_starts_with_priming_pair demo_heap 0 demo_transcript (lit "Telugu")
           None []); vm_compute; reflexivity.
Defined.

Lemma attachment_on_last_turn_only_witness :
  exists ch st' ch0 st0 front t,
    build_payload (VRef 0) (lit "English") (Some (lit "QUJD")) (State demo_heap [])
    = (Ok ch, st')
    /\ build_payload (VRef 0) (lit "English") None (State demo_heap []) = (Ok ch0, st0)
    /\ read_payload (heap st0) ch0 = Some (front ++ [t])
    /\ read_payload (heap st') ch
       = Some (front ++ [Turn (t_role t)
                           (t_parts t ++ [PInline (lit "image/png") (lit "QUJD")])])
    /\ Forall (fun t' => has_inline t' = false) (front ++ [t]).
Proof.
  apply (attachment_on_last_turn_only demo_heap 0 demo_transcript (lit "English")
           (lit "QUJD") []); vm_compute; reflexivity.
Defined.

Lemma payload_turn_per_message_witness :
  exists ch st' p,
    build_payload (VRef 0) (lit "English") None (State demo_heap []) = (Ok ch, st')
    /\ read_payload (heap st') ch = Some p
    /\ length p = 2 + length demo_transcript
    /\ Forall2 turn_matches demo_transcript (drop 2 p).
Proof.
  apply (payload_turn_per_message demo_heap 0 demo_transcript (lit "English") None []);
    vm_compute; reflexivity.
Defined.

Lemma build_leaves_transcript_unchanged_witness :
  (exists st',
     build_payload (VRef 0) (lit "English") (Some (lit "QUJD")) (State demo_heap [])
     = (Ok (VRef (length demo_heap)), st')
     /\ demo_heap !! length demo_heap = None
     /\ (forall l o, demo_heap !! l = Some o -> heap st' !! l = Some o)
     /\ read_messages (heap st') (VRef 0) = Some demo_transcript)
  /\ (exists s st',
        get_medibot_reply echo_remote (VRef 0) (lit "English") (Some (lit "QUJD"))
          (State demo_heap [])
        = (Ok s, st')
        /\ (forall l o, demo_heap !! l = Some o -> heap st' !! l = Some o)
        /\ read_messages (heap st') (VRef 0) = Some demo_transcript).
Proof.
  apply (build_leaves_transcript_unchanged echo_remote demo_heap 0 demo_transcript
           (lit "English") (Some (lit "QUJD")) []); vm_compute; reflexivity.
Defined.

(** ** The scenarios of the description, run *)

(** An empty transcript, one submission, the remote side answers with a
    text: the transcript is the user message and the answer. *)
Example scenario_first_turn :
  let answer := lit "Rest, hydrate, monitor temperature." in
  let remote := fun (_ : list turn) (_ : val) =>
                  CallReturns (Some (Response (TextIs answer) None)) in
  let r := handle_submit remote (VRef 0) true (lit "I have a headache and mild fever")
             None (State empty_heap []) in
  r.1 = Ok tt
  /\ read_messages (heap r.2) (VRef 0)
     = Some [ {[ "role" := VStr (lit "user");
                 "content" := VStr (lit "I have a headache and mild fever") ]};
              {[ "role" := VStr (lit "assistant"); "content" := VStr answer ]} ].
Proof. vm_compute. by split. Qed.

(** A response with prompt feedback whose text reads as the empty string
    gives the safety apology, and the ratings are printed. *)
Example scenario_empty_text_with_feedback :
  let remote := fun (_ : list turn) (_ : val) =>
                  CallReturns (Some (Response (TextIs []) (Some (lit "HIGH")))) in
  let r := get_medibot_reply remote (VRef 0) (lit "English") None
             (State demo_heap []) in
  r.1 = Ok safety_apology
  /\ last (trace r.2)
     = Some (EvPrint (lit "Content was blocked. Safety ratings: HIGH")).
Proof. vm_compute. by split. Qed.

(** A reply without a part, with prompt feedback or without, ends in the
    handler of line 84: the stored reply is the internal-error string and
    nothing is printed. *)
Example scenario_no_part :
  let r1 := handle_submit withheld_remote (VRef 0) true (lit "fever") None
              (State empty_heap []) in
  let r2 := handle_submit empty_remote (VRef 0) true (lit "fever") None
              (State empty_heap []) in
  read_messages (heap r1.2) (VRef 0)
  = Some [user_message (lit "fever"); assistant_message internal_error]
  /\ read_messages (heap r2.2) (VRef 0)
     = Some [user_message (lit "fever"); assistant_message internal_error]
  /\ last (trace r1.2) = Some EvRerun
  /\ last (trace r2.2) = Some EvRerun.
Proof. intros r1 r2. repeat split; vm_compute; reflexivity. Qed.

(** What the remote side is sent on the second turn: the whole transcript
    as history, and the new text once more as the message. *)
Example scenario_history_resent :
  let r := handle_submit echo_remote (VRef 0) true (lit "and a cough") None
             (State demo_heap []) in
  head (trace r.2)
  = Some (EvSend [ Turn (lit "user") [PText (system_prompt (lit "English"))];
                   Turn (lit "model") [PText ack_text];
                   Turn (lit "user") [PText (lit "hi")];
                   Turn (lit "model") [PText (lit "hello")];
                   Turn (lit "user") [PText (lit "and a cough")] ]
                 (VStr (lit "and a cough"))).
Proof. vm_compute. reflexivity. Qed.

(** ** Escaping *)

Example escape_sample :
  escape (lit "a<b> & 'c'" ++ [34%N]) = lit "a&lt;b&gt; &amp; &#x27;c&#x27;&quot;".
Proof. reflexivity. Qed.

Example b64encode_samples :
  b64encode (lit "") = lit ""
  /\ b64encode (lit "f") = lit "Zg=="
  /\ b64encode (lit "fo") = lit "Zm8="
  /\ b64encode (lit "foo") = lit "Zm9v"
  /\ b64encode (lit "foob") = lit "Zm9vYg=="
  /\ b64encode (lit "fooba") = lit "Zm9vYmE="
  /\ b64encode (lit "foobar") = lit "Zm9vYmFy"
  /\ b64encode [255; 254; 253; 0; 16; 131]%N = lit "//79ABCD".
Proof. repeat split. Qed.

Example b64encode_png :
  b64encode (file_data png_upload)
  = lit "iVBORw0KGgoAAAANSUhEUgAAAAEAAAABCAAAAAA6fptVAAAACklEQVR42mNgAAAAAgAB5Sfe/AAAAABJRU5ErkJggg==".
Proof. vm_compute. reflexivity. Qed.

Lemma replace_char_app old new s1 s2 :
  replace_char old new (s1 ++ s2) = replace_char old new s1 ++ replace_char old new s2.
Proof. unfold replace_char. by rewrite fmap_app, concat_app. Qed.

Lemma replace_char_cons old new c s :
  replace_char old new (c :: s)
  = (if (c =? old)%N then new else [c]) ++ replace_char old new s.
Proof. reflexivity. Qed.

Lemma escape_app s1 s2 : escape (s1 ++ s2) = escape s1 ++ escape s2.
Proof. unfold escape. by rewrite !replace_char_app. Qed.

Lemma escape_single c : escape [c] = escape_char c.
Proof.
  unfold escape, escape_char.
  destruct (c =? 38)%N eqn:E1.
  { apply N.eqb_eq in E1 as ->. reflexivity. }
  destruct (c =? 60)%N eqn:E2.
  { apply N.eqb_eq in E2 as ->. reflexivity. }
  destruct (c =? 62)%N eqn:E3.
  { apply N.eqb_eq in E3 as ->. reflexivity. }
  destruct (c =? 34)%N eqn:E4.
  { apply N.eqb_eq in E4 as ->. reflexivity. }
  destruct (c =? 39)%N eqn:E5.
  { apply N.eqb_eq in E5 as ->. reflexivity. }
  unfold replace_char. cbn [fmap list_fmap concat app].
  by rewrite E1, ?app_nil_r; cbn [fmap list_fmap concat app];
     rewrite E2, ?app_nil_r; cbn [fmap list_fmap concat app];
     rewrite E3, ?app_nil_r; cbn [fmap list_fmap concat app];
     rewrite E4, ?app_nil_r; cbn [fmap list_fmap concat app];
     rewrite E5.
Qed.

Lemma escape_cons c s : escape (c :: s) = escape_char c ++ escape s.
Proof. change (c :: s) with ([c] ++ s). by rewrite escape_app, escape_single. Qed.

Lemma escape_char_no_markup c :
  forallb (fun x => negb (is_markup x)) (escape_char c) = true.
Proof.
  unfold escape_char.
  repeat (match goal with |- context [(c =? ?k)%N] => destruct (c =? k)%N eqn:? end;
          [reflexivity|]).
  cbn [forallb]. unfold is_markup.
  repeat match goal with H : (_ =? _)%N = false |- _ => rewrite H; clear H end.
  reflexivity.
Qed.

(** X1.  Whatever the content of a message, its escaped form has no "<",
    no ">" and no quote of either kind: the text cannot close the bubble's
    tag, open another, or leave an attribute. *)
Theorem escape_no_markup s :
  forallb (fun c => negb (is_markup c)) (escape s) = true.
Proof.
  induction s as [|c s IH]; [done|].
  rewrite escape_cons, forallb_app, escape_char_no_markup. exact IH.
Qed.

Lemma escape_char_prefix c1 c2 r1 r2 :
  escape_char c1 ++ r1 = escape_char c2 ++ r2 -> c1 = c2 /\ r1 = r2.
Proof.
  unfold escape_char.
  repeat (match goal with |- context [(c1 =? ?k)%N] => destruct (N.eqb_spec c1 k) end);
  repeat (match goal with |- context [(c2 =? ?k)%N] => destruct (N.eqb_spec c2 k) end);
  subst; cbn; intros H; inversion H; subst; try done.
Qed.

(** X2.  Escaping loses nothing: two different contents never give the
    same escaped text. *)
Theorem escape_injective s1 s2 : escape s1 = escape s2 -> s1 = s2.
Proof.
  revert s2. induction s1 as [|c1 s1 IH]; intros [|c2 s2].
  - done.
  - rewrite escape_cons. unfold escape_char.
    repeat (match goal with |- context [(c2 =? ?k)%N] => destruct (c2 =? k)%N end);
      discriminate.
  - rewrite escape_cons. unfold escape_char.
    repeat (match goal with |- context [(c1 =? ?k)%N] => destruct (c1 =? k)%N end);
      discriminate.
  - rewrite !escape_cons. intros [-> Hs]%escape_char_prefix.
    by rewrite (IH s2 Hs).
Qed.

Lemma escape_injective_witness :
  escape (lit "a<b") = escape (lit "a<b") /\ lit "a<b" = lit "a<b".
Proof.
  split; [reflexivity|]. apply (escape_injective (lit "a<b") (lit "a<b")). reflexivity.
Defined.

(** ** Running page steps *)

Lemma p_bind_done {A B} (m : P A) (f : A -> P B) pg a pg' :
  m pg = (Done a, pg') -> (m ≫= f) pg = f a pg'.
Proof. intros H. unfold mbind, P_bind. by rewrite H. Qed.


Lemma p_bind_stops {A B} (m : P A) (f : A -> P B) pg pg' :
  m pg = (Stops, pg') -> (m ≫= f) pg = (Stops, pg').
Proof. intros H. unfold mbind, P_bind. by rewrite H. Qed.

Tactic Notation "prun" uconstr(H) := rewrite (p_bind_done _ _ _ _ _ H).

Lemma lift_ok {A} (m : M A) st a st' scr ses :
  m st = (Ok a, st') -> lift m (Page st scr ses) = (Done a, Page st' scr ses).
Proof. intros H. unfold lift. cbn [core screen session_messages]. by rewrite H. Qed.

Lemma lift_raise {A} (m : M A) st e st' scr ses :
  m st = (Raise e, st') -> lift m (Page st scr ses) = (Throws e, Page st' scr ses).
Proof. intros H. unfold lift. cbn [core screen session_messages]. by rewrite H. Qed.

Lemma draw_run w p st scr ses :
  draw p w (Page st scr ses) = (Done tt, Page st (scr ++ [(p, w)]) ses).
Proof. reflexivity. Qed.

Lemma session_get_run st scr v :
  session_get (Page st scr (Some v)) = (Done v, Page st scr (Some v)).
Proof. reflexivity. Qed.

Lemma dict_get_default_run l d k dflt h tr :
  h !! l = Some (ODict d) ->
  dict_get_default (VRef l) k dflt (State h tr)
  = (Ok (default dflt (d !! k)), State h tr).
Proof. intros H. unfold dict_get_default. by run (load_run _ _ _ _ H). Qed.

(** ** Drawing the transcript *)

Lemma draw_message_run h tr scr ses l d b :
  h !! l = Some (ODict d) ->
  bubble_of d = Some b ->
  draw_message (VRef l) (Page (State h tr) scr ses)
  = (Done tt, Page (State h tr) (scr ++ [b]) ses).
Proof.
  intros Hl Hb. unfold draw_message.
  prun (lift_ok _ _ _ _ _ _ (dict_get_run _ _ _ _ _ Hl)).
  prun (lift_ok _ _ _ _ _ _ (dict_get_run _ _ _ _ _ Hl)).
  prun (lift_ok _ _ _ _ _ _ (dict_get_default_run _ _ _ _ _ _ Hl)).
  unfold bubble_of in Hb.
  destruct (default (VStr []) (d !! "content")) as [|s|] eqn:Hc; try done.
  injection Hb as <-.
  prun (lift_ok _ _ _ _ _ _ (eq_refl : escape_val (VStr s) (State h tr) = _)).
  rewrite draw_run. unfold is_user. reflexivity.
Qed.


Lemma mapM_cons_Some {A B} (f : A -> option B) x l k :
  mapM f (x :: l) = Some k ->
  exists y k', f x = Some y /\ mapM f l = Some k' /\ k = y :: k'.
Proof.
  intros H%mapM_Some. apply Forall2_cons_inv_l in H as (y & k' & Hy & Hk & ->).
  exists y, k'. repeat split; [done|]. by apply mapM_Some.
Qed.

Lemma p_for_each_draws h lm refs ds tr ses fuel : forall i scr bs,
  h !! lm = Some (OList refs) ->
  messages_at h refs ds ->
  mapM bubble_of (drop i ds) = Some bs ->
  length refs - i < fuel ->
  p_for_each fuel i lm draw_message (Page (State h tr) scr ses)
  = (Done tt, Page (State h tr) (scr ++ bs) ses).
Proof.
  induction fuel as [|fuel IH]; intros i scr bs Hlm Hds Hbs Hfuel; [lia|].
  cbn [p_for_each].
  prun (lift_ok _ _ _ _ _ _ (load_run _ _ _ _ Hlm)).
  destruct (refs !! i) as [r|] eqn:Hr.
  - destruct (Forall2_lookup_l _ _ _ _ _ Hds Hr) as (d & Hd & l & -> & Hl).
    rewrite (drop_S _ _ _ Hd) in Hbs.
    apply mapM_cons_Some in Hbs as (b & bs' & Hb & Hbs' & ->).
    prun (draw_message_run _ _ _ _ _ _ _ Hl Hb).
    rewrite (IH (S i) _ bs'); try done.
    + by rewrite <- app_assoc.
    + apply lookup_lt_Some in Hr. lia.
  - apply lookup_ge_None in Hr.
    rewrite drop_ge in Hbs by (rewrite <- (Forall2_length _ _ _ Hds); lia).
    injection Hbs as <-. by rewrite app_nil_r.
Qed.


Lemma display_run st scr lm ds bs :
  read_messages (heap st) (VRef lm) = Some ds ->
  mapM bubble_of ds = Some bs ->
  display (Page st scr (Some (VRef lm)))
  = (Done tt,
     Page st (scr ++ match ds with
                     | [] => [(ChatCol, WInfo no_messages_text)]
                     | _ => bs
                     end) (Some (VRef lm)))
  /\ length bs = length ds.
Proof.
  intros (refs & Hlm & Hds)%read_messages_Some Hbs. split.
  - destruct st as [h tr]. cbn [heap] in *. unfold display.
    prun (session_get_run _ _ _).
    prun (lift_ok _ _ _ _ _ _ (list_truthy_run _ _ _ _ Hlm)).
    destruct ds as [|d ds].
    + apply Forall2_nil_inv_r in Hds as ->. reflexivity.
    + apply Forall2_cons_inv_r in Hds as (r & refs' & Hr & Hrest & ->).
      prun (session_get_run _ _ _).
      unfold p_for_in.
      prun (lift_ok _ _ _ _ _ _ (load_run _ _ _ _ Hlm)).
      apply (p_for_each_draws h lm (r :: refs') (d :: ds)); try done.
      * by constructor.
      * lia.
  - symmetry. by eapply length_mapM.
Qed.

(** X3.  The chat display draws one bubble per message, in transcript
    order, each with the escaped content, or the "no messages" note when
    the transcript is empty; it changes nothing in the store and sends
    nothing. *)
Theorem display_draws_transcript st scr lm ds bs :
  read_messages (heap st) (VRef lm) = Some ds ->
  mapM bubble_of ds = Some bs ->
  display (Page st scr (Some (VRef lm)))
  = (Done tt,
     Page st (scr ++ match ds with
                     | [] => [(ChatCol, WInfo no_messages_text)]
                     | _ => bs
                     end) (Some (VRef lm)))
  /\ length bs = length ds.
Proof. apply display_run. Qed.

Lemma display_draws_transcript_witness :
  display demo_page
  = (Done tt,
     Page (State demo_heap [])
       ([] ++ [ (ChatCol,
                 WMarkdown (bubble_html (lit "user-bubble")
                              (speech_balloon ++ lit " You") (lit "hi")) true);
                (ChatCol,
                 WMarkdown (bubble_html (lit "assistant-bubble")
                              (robot_face ++ lit " MediBot") (lit "hello")) true) ])
       (Some (VRef 0)))
  /\ length [ (ChatCol,
               WMarkdown (bubble_html (lit "user-bubble")
                            (speech_balloon ++ lit " You") (lit "hi")) true);
              (ChatCol,
               WMarkdown (bubble_html (lit "assistant-bubble")
                            (robot_face ++ lit " MediBot") (lit "hello")) true) ]
     = length demo_transcript.
Proof.
  apply (display_draws_transcript (State demo_heap []) [] 0 demo_transcript);
    vm_compute; reflexivity.
Defined.



(** ** The uploaded file as base64 text *)

(** X5.  The attachment text has four characters for every three bytes of
    the file, rounded up; so it is the empty string exactly when the file
    is empty. *)
Theorem b64encode_length bs :
  length (b64encode bs) = 4 * ((length bs + 2) / 3)
  /\ (b64encode bs = [] <-> bs = []).
Proof.
  split.
  - revert bs. fix IH 1. intros [|b1 [|b2 [|b3 rest]]]; try reflexivity.
    cbn [b64encode length]. rewrite (IH rest).
    replace (S (S (S (length rest))) + 2) with (1 * 3 + (length rest + 2)) by lia.
    rewrite Nat.div_add_l by lia. lia.
  - destruct bs as [|b1 [|b2 [|b3 rest]]]; split; done.
Qed.

Lemma b64_char_in_alphabet i : (i < 64)%N -> b64_char i ∈ b64_alphabet.
Proof.
  intros Hi. unfold b64_char.
  assert (Hlen : N.to_nat i < length b64_alphabet).
  { change (length b64_alphabet) with 64. lia. }
  destruct (lookup_lt_is_Some_2 _ _ Hlen) as [c Hc].
  rewrite Hc. cbn [default]. by eapply list_elem_of_lookup_2.
Qed.

Lemma is_b64_char_char i : (i < 64)%N -> is_b64_char (b64_char i) = true.
Proof.
  intros Hi. unfold is_b64_char.
  by rewrite (bool_decide_eq_true_2 _ (b64_char_in_alphabet i Hi)).
Qed.

(** X6.  For a file of bytes, the attachment text consists of characters
    of the base64 alphabet and the padding sign only. *)
Theorem b64encode_alphabet bs :
  is_bytes bs = true -> forallb is_b64_char (b64encode bs) = true.
Proof.
  revert bs. fix IH 1. intros [|b1 [|b2 [|b3 rest]]]; [done|..];
    cbn [is_bytes forallb b64encode]; rewrite ?andb_true_iff, ?N.ltb_lt.
  - intros [H1 _]. rewrite is_b64_char_char; [|by apply N.Div0.div_lt_upper_bound; lia].
    rewrite is_b64_char_char; [done|].
    pose proof (N.mod_upper_bound b1 4). lia.
  - intros (H1 & H2 & _).
    assert (b1 / 4 < 64)%N by (apply N.Div0.div_lt_upper_bound; lia).
    assert (b2 / 16 < 16)%N by (apply N.Div0.div_lt_upper_bound; lia).
    pose proof (N.mod_upper_bound b1 4). pose proof (N.mod_upper_bound b2 16).
    rewrite !is_b64_char_char by lia. done.
  - intros (H1 & H2 & H3 & Hrest).
    assert (b1 / 4 < 64)%N by (apply N.Div0.div_lt_upper_bound; lia).
    assert (b2 / 16 < 16)%N by (apply N.Div0.div_lt_upper_bound; lia).
    assert (b3 / 64 < 4)%N by (apply N.Div0.div_lt_upper_bound; lia).
    pose proof (N.mod_upper_bound b1 4). pose proof (N.mod_upper_bound b2 16).
    pose proof (N.mod_upper_bound b3 64).
    rewrite !is_b64_char_char by lia. repeat split.
    apply IH. exact Hrest.
Qed.

Lemma b64encode_alphabet_witness :
  forallb is_b64_char (b64encode [255; 254; 253; 0; 16]%N) = true.
Proof. apply b64encode_alphabet. vm_compute. reflexivity. Defined.

Lemma b64encode_truthy bs : bs <> [] -> str_truthy (b64encode bs) = true.
Proof. by destruct bs as [|b1 [|b2 [|b3 rest]]]. Qed.

(** ** More on the submit handler *)

Section HandlerFrame.

Variable remote : list turn -> val -> remote_outcome.

(** The accepted submission again, with the store it leaves spelled out:
    the list object is the only old object that changes. *)
Lemma handle_submit_run_frame h lm refs ds user_input att tr :
  h !! lm = Some (OList refs) ->
  messages_at h refs ds ->
  Forall (fun d => message_ok d = true) ds ->
  str_truthy (strip user_input) = true ->
  let p := payload_of (lit "English") (ds ++ [user_message user_input]) att in
  let c := VStr (strip user_input) in
  exists h' n2,
    handle_submit remote (VRef lm) true user_input att (State h tr)
    = (Ok tt, State h' (tr ++ EvSend p c :: reply_events (remote p c) ++ [EvRerun]))
    /\ h' !! lm = Some (OList (refs ++ [VRef (length h); VRef n2]))
    /\ h' !! length h = Some (ODict (user_message user_input))
    /\ h' !! n2 = Some (ODict (assistant_message (reply_of (remote p c))))
    /\ length h < n2
    /\ (forall l o, l <> lm -> h !! l = Some o -> h' !! l = Some o).
Proof.
  intros Hlm Hds Hok Hin p c.
  pose proof (lookup_lt_Some _ _ _ Hlm) as Hlt.
  unfold handle_submit. rewrite Hin. cbn [andb].
  run (alloc_run _ _ _).
  fold (user_message user_input).
  run (list_append_run _ _ _ _ _ (lookup_app_l_Some _ _ _ _ Hlm)).
  destruct (messages_at_append h lm refs ds (user_message user_input) Hlm Hds)
    as [Hlm1 Hds1].
  set (h1 := <[lm := _]> (h ++ _)) in *.
  assert (Hok1 : Forall (fun d => message_ok d = true) (ds ++ [user_message user_input])).
  { apply Forall_app. split; [done|]. by constructor. }
  run (get_medibot_reply_run remote h1 lm _ _ (user_message user_input)
         (lit "English") att tr Hlm1 Hds1 Hok1 (last_snoc _ _)).
  change (get_field (user_message user_input) "content") with c. fold p.
  set (h2 := heap_after_reply h1 _ _ _).
  destruct (heap_after_reply_ext h1 (lit "English")
              (ds ++ [user_message user_input]) att) as [ext Hext].
  fold h2 in Hext.
  assert (Hlm2 : h2 !! lm = Some (OList (refs ++ [VRef (length h)]))).
  { rewrite Hext. by apply lookup_app_l_Some. }
  run (alloc_run _ _ _).
  fold (assistant_message (reply_of (remote p c))).
  run (list_append_run _ _ _ _ _ (lookup_app_l_Some _ _ _ _ Hlm2)).
  rewrite emit_run.
  assert (Hlen1 : length h1 = S (length h)).
  { unfold h1. rewrite length_insert, length_app. cbn [length]. lia. }
  assert (Hlen2 : length h1 <= length h2).
  { rewrite Hext, length_app. lia. }
  exists (<[lm := OList ((refs ++ [VRef (length h)]) ++ [VRef (length h2)])]>
            (h2 ++ [ODict (assistant_message (reply_of (remote p c)))])),
         (length h2).
  split; [|split; [|split; [|split; [|split]]]].
  - rewrite <- (app_assoc tr). reflexivity.
  - rewrite list_lookup_insert_eq by (rewrite length_app; lia).
    by rewrite <- app_assoc.
  - rewrite list_lookup_insert_ne by lia.
    apply lookup_app_l_Some. rewrite Hext. apply lookup_app_l_Some.
    unfold h1. rewrite list_lookup_insert_ne by lia.
    by apply list_lookup_middle.
  - rewrite list_lookup_insert_ne by lia. by apply list_lookup_middle.
  - lia.
  - intros l o Hne Hl.
    rewrite list_lookup_insert_ne by done.
    apply lookup_app_l_Some. rewrite Hext. apply lookup_app_l_Some.
    unfold h1. rewrite list_lookup_insert_ne by done.
    by apply lookup_app_l_Some.
Qed.

(** X8.  The handler never edits a message: when an accepted submission
    has run, every object of the store other than the transcript list holds
    what it held, and the list has two more references at its end, to a
    new user dict and a new assistant dict. *)
Theorem handler_changes_only_the_list h lm ds user_input att tr :
  read_messages h (VRef lm) = Some ds ->
  transcript_ok ds = true ->
  str_truthy (strip user_input) = true ->
  exists st' refs u a,
    handle_submit remote (VRef lm) true user_input att (State h tr) = (Ok tt, st')
    /\ h !! lm = Some (OList refs)
    /\ heap st' !! lm = Some (OList (refs ++ [VRef u; VRef a]))
    /\ h !! u = None /\ h !! a = None /\ u <> a
    /\ heap st' !! u = Some (ODict (user_message user_input))
    /\ (exists reply, heap st' !! a = Some (ODict (assistant_message reply)))
    /\ (forall l o, l <> lm -> h !! l = Some o -> heap st' !! l = Some o).
Proof.
  intros (refs & Hlm & Hds)%read_messages_Some Hok%forallb_Forall Hin.
  destruct (handle_submit_run_frame h lm refs ds user_input att tr Hlm Hds Hok Hin)
    as (h' & n2 & Hrun & Hlm' & Hu & Ha & Hlt & Hframe).
  eexists _, refs, (length h), n2.
  split; [exact Hrun|]. cbn [heap].
  split; [exact Hlm|]. split; [exact Hlm'|].
  split; [by apply lookup_ge_None_2|].
  split; [apply lookup_ge_None_2; lia|].
  split; [lia|]. split; [exact Hu|]. split; [by eexists|exact Hframe].
Qed.

End HandlerFrame.

(** ** What one accepted turn sends *)

Lemma count_sends_app tr1 tr2 :
  count_sends (tr1 ++ tr2) = count_sends tr1 + count_sends tr2.
Proof. induction tr1 as [|ev tr1 IH]; [done|]. cbn [app count_sends]. rewrite IH. lia. Qed.

Lemma count_sends_reply_events o : count_sends (reply_events o) = 0.
Proof. by destruct o as [detail|[[[detail|[|c t]] [ratings|]]|]]. Qed.

Lemma message_turn_user_message t :
  message_turn (user_message t) = Some (Turn (lit "user") [PText (strip t)]).
Proof. reflexivity. Qed.

Lemma payload_last_user language ds t att :
  payload_of language (ds ++ [user_message t]) att
  = (priming_pair language ++ omap message_turn ds)
    ++ [Turn (lit "user") (PText (strip t) :: attachment_parts att)].
Proof.
  unfold payload_of, attachment_parts. rewrite omap_app.
  cbn [omap list_omap]. rewrite message_turn_user_message. rewrite app_assoc.
  destruct att as [a|]; [destruct (str_truthy a)|]; try reflexivity.
  by rewrite alter_last_snoc.
Qed.

Lemma roles_ok_snoc_user ds t :
  roles_ok ds = true -> roles_ok (ds ++ [user_message t]) = true.
Proof. unfold roles_ok. rewrite forallb_app. by intros ->. Qed.

Lemma omap_message_turn_known (ds : list (gmap string val)) :
  omap message_turn (filter (fun d => known_role d = true) ds) = omap message_turn ds.
Proof.
  induction ds as [|d ds IH]; [done|].
  rewrite filter_cons. cbn [omap list_omap].
  destruct (decide (known_role d = true)) as [Hk|Hk].
  - cbn [omap list_omap]. by rewrite IH.
  - rewrite IH. unfold message_turn, known_role, is_user, is_assistant in *.
    repeat case_bool_decide; try done.
Qed.

Lemma payload_of_known language (ds : list (gmap string val)) att :
  payload_of language (filter (fun d => known_role d = true) ds) att
  = payload_of language ds att.
Proof. unfold payload_of. by rewrite omap_message_turn_known. Qed.

Section TurnSends.

Variable remote : list turn -> val -> remote_outcome.

(** X9.  An accepted turn sends exactly one message, and the user's text
    goes out twice in it: as the first part of the last turn of the
    history, and once more as the message itself. *)
Theorem last_message_sent_twice h lm ds user_input att tr :
  read_messages h (VRef lm) = Some ds ->
  transcript_ok ds = true ->
  str_truthy (strip user_input) = true ->
  exists st' front extra rest,
    handle_submit remote (VRef lm) true user_input att (State h tr) = (Ok tt, st')
    /\ trace st'
       = tr ++ EvSend (front ++ [Turn (lit "user") (PText (strip user_input) :: extra)])
                      (VStr (strip user_input)) :: rest
    /\ count_sends (trace st') = count_sends tr + 1.
Proof.
  intros (refs & Hlm & Hds)%read_messages_Some Hok%forallb_Forall Hin.
  destruct (handle_submit_run remote h lm refs ds user_input att tr
              Hlm Hds Hok Hin) as (h' & refs' & Hrun & _).
  rewrite payload_last_user in Hrun.
  eexists _, _, _, _. split; [exact Hrun|]. cbn [trace]. split; [reflexivity|].
  rewrite count_sends_app. cbn [count_sends is_send].
  rewrite count_sends_app, count_sends_reply_events. cbn. lia.
Qed.

(** X10.  Nothing of the transcript is left out or shortened: at an accepted
    turn on a transcript of [n] user and assistant messages, the history
    sent has [n + 3] turns, and after the priming pair they match the old
    messages and the new user message one by one. *)
Theorem whole_transcript_resent h lm ds user_input att tr :
  read_messages h (VRef lm) = Some ds ->
  transcript_ok ds = true ->
  roles_ok ds = true ->
  str_truthy (strip user_input) = true ->
  exists st' p c rest,
    handle_submit remote (VRef lm) true user_input att (State h tr) = (Ok tt, st')
    /\ trace st' = tr ++ EvSend p c :: rest
    /\ length p = length ds + 3
    /\ Forall2 turn_matches (ds ++ [user_message user_input]) (drop 2 p).
Proof.
  intros (refs & Hlm & Hds)%read_messages_Some Hok%forallb_Forall Hroles Hin.
  destruct (handle_submit_run remote h lm refs ds user_input att tr
              Hlm Hds Hok Hin) as (h' & refs' & Hrun & _).
  pose proof (payload_turns_match (lit "English") (ds ++ [user_message user_input]) att
                (forallb_Forall _ _ (roles_ok_snoc_user ds user_input Hroles))) as Hm.
  eexists _, _, _, _. split; [exact Hrun|]. cbn [trace].
  split; [reflexivity|]. split; [|exact Hm].
  apply Forall2_length in Hm. rewrite length_drop, length_app in Hm. cbn [length] in Hm.
  destruct (payload_head (lit "English") (ds ++ [user_message user_input]) att)
    as (t2 & rest & Hp & _).
  rewrite Hp in *. cbn [length] in *. lia.
Qed.

End TurnSends.

(** X11.  A message whose role is neither "user" nor "assistant" gets no
    turn: the payload is the one of the transcript without such messages,
    two turns longer than the number of user and assistant messages. *)
Theorem other_roles_skipped h0 lm ds language att tr :
  read_messages h0 (VRef lm) = Some ds ->
  transcript_ok ds = true ->
  exists ch st' p,
    build_payload (VRef lm) language att (State h0 tr) = (Ok ch, st')
    /\ read_payload (heap st') ch = Some p
    /\ length p = 2 + length (filter (fun d => known_role d = true) ds)
    /\ Forall2 turn_matches (filter (fun d => known_role d = true) ds) (drop 2 p).
Proof.
  intros Hread Hok.
  destruct (build_payload_reads h0 lm ds language att tr Hread Hok) as [Hrun Hpay].
  set (ks := filter (fun d => known_role d = true) ds).
  assert (Hks : Forall (fun d => is_user d || is_assistant d = true) ks).
  { apply Forall_forall. intros d Hd. by apply list_elem_of_filter in Hd as [Hd _]. }
  pose proof (payload_turns_match language ks att Hks) as Hm.
  unfold ks in Hm at 2. rewrite payload_of_known in Hm.
  eexists _, _, _. split; [exact Hrun|]. split; [exact Hpay|].
  split; [|exact Hm].
  apply Forall2_length in Hm. rewrite length_drop in Hm.
  destruct (payload_head language ds att) as (t2 & rest & Hp & _).
  rewrite Hp in *. cbn [length] in *. fold ks. lia.
Qed.

(** ** Whole sessions *)

Section SessionCounts.

Variable remote : list turn -> val -> remote_outcome.

Lemma run_turns_counts turns : forall h lm ds tr,
  read_messages h (VRef lm) = Some ds ->
  Forall (fun d => message_ok d = true) ds ->
  exists st' extra,
    run_turns remote (VRef lm) turns (State h tr) = (Ok tt, st')
    /\ read_messages (heap st') (VRef lm) = Some (ds ++ extra)
    /\ length extra = 2 * count_accepted turns
    /\ count_sends (trace st') = count_sends tr + count_accepted turns.
Proof.
  induction turns as [|[[submitted user_input] att] turns IH];
    intros h lm ds tr Hread Hok.
  - exists (State h tr), []. rewrite app_nil_r. cbn. repeat split; try done; lia.
  - cbn [run_turns count_accepted]. unfold is_accepted. cbn [fst snd].
    destruct (submitted && str_truthy (strip user_input)) eqn:Hacc.
    + apply andb_true_iff in Hacc as [-> Hin].
      apply read_messages_Some in Hread as (refs & Hlm & Hds).
      destruct (handle_submit_run remote h lm refs ds user_input att tr
                  Hlm Hds Hok Hin) as (h' & refs' & Hrun & Hlm' & Hds').
      run Hrun.
      edestruct (IH h' lm) as (st' & extra & Hrun' & Hread' & Hlen & Hsends).
      * eapply read_messages_intro; eauto.
      * apply Forall_app. split; [done|]. repeat constructor.
      * exists st', ([user_message user_input;
                      assistant_message
                        (reply_of (remote (payload_of (lit "English")
                                             (ds ++ [user_message user_input]) att)
                                          (VStr (strip user_input))))] ++ extra).
        split; [exact Hrun'|]. split; [by rewrite app_assoc|].
        split; [rewrite length_app; cbn [length]; lia|].
        rewrite Hsends, count_sends_app. cbn [count_sends is_send].
        rewrite count_sends_app, count_sends_reply_events. cbn. lia.
    + run (handle_submit_skip remote _ _ _ _ _ Hacc).
      destruct (IH h lm ds tr Hread Hok) as (st' & extra & Hrun' & Hread' & Hlen & Hsends).
      exists st', extra. repeat split; try done; lia.
Qed.

(** X12.  The transcript only grows: after any sequence of runs its old
    messages are still there, in place, followed by exactly two new
    messages for every accepted submission. *)
Theorem session_append_only turns h lm ds tr :
  read_messages h (VRef lm) = Some ds ->
  transcript_ok ds = true ->
  exists st' extra,
    run_turns remote (VRef lm) turns (State h tr) = (Ok tt, st')
    /\ read_messages (heap st') (VRef lm) = Some (ds ++ extra)
    /\ length extra = 2 * count_accepted turns.
Proof.
  intros Hread Hok%forallb_Forall.
  destruct (run_turns_counts turns h lm ds tr Hread Hok)
    as (st' & extra & Hrun & Hread' & Hlen & _).
  by exists st', extra.
Qed.

(** X13.  Over any sequence of runs the remote side is sent exactly one
    message per accepted submission, whatever it answers and however its
    calls fail; runs that are not accepted send nothing. *)
Theorem session_one_send_per_accepted_turn turns h lm ds tr :
  read_messages h (VRef lm) = Some ds ->
  transcript_ok ds = true ->
  exists st',
    run_turns remote (VRef lm) turns (State h tr) = (Ok tt, st')
    /\ count_sends (trace st') = count_sends tr + count_accepted turns.
Proof.
  intros Hread Hok%forallb_Forall.
  destruct (run_turns_counts turns h lm ds tr Hread Hok)
    as (st' & extra & Hrun & _ & _ & Hsends).
  by exists st'.
Qed.

End SessionCounts.

(** ** Runs of the script *)

Lemma configure_ok env pg : configured env = true -> configure env pg = (Done tt, pg).
Proof.
  unfold configured, configure, p_try_except, key_present, genai_configure.
  destruct pg as [st scr ses].
  destruct (apiKEY env) as [[|c k]|] eqn:Hkey; try done.
  by destruct (configure_error env (c :: k)).
Qed.

Lemma configure_no_key env pg :
  key_present (apiKEY env) = false ->
  configure env pg
  = (Stops, Page (core pg) (screen pg ++ [(Main, WError key_missing_text)])
              (session_messages pg)).
Proof.
  intros Hkey. unfold configure, p_try_except. destruct pg as [st scr ses].
  cbn. by rewrite Hkey.
Qed.

Lemma configure_raises env pg k detail :
  apiKEY env = Some k -> str_truthy k = true ->
  configure_error env k = Some detail ->
  configure env pg
  = (Stops,
     Page (core pg)
       (screen pg ++ [(Main, WError (lit "Error configuring Gemini API: " ++ detail))])
       (session_messages pg)).
Proof.
  intros Hkey Hk Herr. unfold configure, p_try_except, genai_configure, key_present.
  destruct pg as [st scr ses]. rewrite Hkey. destruct k as [|c k]; [done|].
  cbn. by rewrite Herr.
Qed.

Lemma texts_bubbles ds :
  texts ds = true ->
  mapM bubble_of ds = Some (bubbles ds) /\ length (bubbles ds) = length ds.
Proof.
  unfold texts, bubbles. induction ds as [|d ds IH]; [done|].
  cbn [forallb]. intros [Hd Hds]%andb_true_iff.
  destruct (IH Hds) as [Hm Hl].
  assert (Hb : exists b, bubble_of d = Some b).
  { unfold has_text in Hd. unfold bubble_of.
    destruct (d !! "content") as [[| |]|]; try done. cbn. eauto. }
  destruct Hb as [b Hb]. cbn [omap list_omap mapM]. rewrite Hb, Hm. cbn.
  by rewrite Hl.
Qed.

Lemma texts_snoc_pair ds t reply :
  texts ds = true -> texts (ds ++ [user_message t; assistant_message reply]) = true.
Proof. unfold texts. rewrite forallb_app. by intros ->. Qed.

Lemma upload_run file st scr ses :
  upload file (Page st scr ses)
  = (Done (attachment_of file), Page st (scr ++ upload_widgets file) ses).
Proof.
  destruct file as [f|]; unfold upload, upload_widgets, attachment_of;
    do 2 prun (draw_run _ _ _ _ _).
  - do 2 prun (draw_run _ _ _ _ _). unfold mret, P_ret.
    by rewrite <- !app_assoc.
  - unfold mret, P_ret. by rewrite <- !app_assoc.
Qed.

Section ScriptRuns.

Variable remote : list turn -> val -> remote_outcome.

(** Up to the handler the script only draws. *)
Lemma script_draws env inp h tr scr lm ds :
  configured env = true ->
  read_messages h (VRef lm) = Some ds ->
  texts ds = true ->
  script remote env inp (Page (State h tr) scr (Some (VRef lm)))
  = submit remote (in_text inp) (in_submitted inp) (attachment_of (in_file inp))
      (Page (State h tr) (scr ++ page_widgets (bubbles ds) (in_file inp))
         (Some (VRef lm))).
Proof.
  intros Henv Hread Htexts.
  destruct (texts_bubbles ds Htexts) as [Hbs Hlen].
  unfold script.
  prun (configure_ok env _ Henv).
  do 4 prun (draw_run _ _ _ _ _).
  prun (eq_refl : session_init (Page (State h tr) _ (Some (VRef lm))) = (Done tt, _)).
  do 2 prun (draw_run _ _ _ _ _).
  destruct (display_run (State h tr) 
              (((((((scr ++ [(Main, WPageConfig (lit "MediBot") (lit "wide"))])
                    ++ [(Main, WMarkdown page_css true)])
                   ++ [(Main, WTitle (stethoscope ++ lit " MediBot: Your Health Assistant"))])
                  ++ [(Main, WMarkdown (lit "---") false)])
                 ++ [(Main, WMarkdown (lit "## Conversation") false)])
                ++ [(Main, WColumns [4; 1]%N)]))
              lm ds (bubbles ds) Hread Hbs) as [Hdisp _].
  prun Hdisp.
  assert (Hshow : match ds with
                  | [] => [(ChatCol, WInfo no_messages_text)]
                  | _ => bubbles ds
                  end
                  = match bubbles ds with
                    | [] => [(ChatCol, WInfo no_messages_text)]
                    | _ => bubbles ds
                    end).
  { destruct ds, (bubbles _); try done. }
  rewrite Hshow.
  prun (upload_run _ _ _ _).
  do 3 prun (draw_run _ _ _ _ _).
  unfold page_widgets, header_widgets, transcript_widgets, form_widgets.
  rewrite <- !app_assoc. reflexivity.
Qed.

Lemma submit_accepted h lm refs ds user_input att tr scr :
  h !! lm = Some (OList refs) ->
  messages_at h refs ds ->
  Forall (fun d => message_ok d = true) ds ->
  str_truthy (strip user_input) = true ->
  let p := payload_of (lit "English") (ds ++ [user_message user_input]) att in
  let c := VStr (strip user_input) in
  exists h' refs',
    submit remote user_input true att (Page (State h tr) scr (Some (VRef lm)))
    = (Done tt,
       Page (State h' (tr ++ EvSend p c :: reply_events (remote p c) ++ [EvRerun]))
         scr (Some (VRef lm)))
    /\ h' !! lm = Some (OList refs')
    /\ messages_at h' refs'
         (ds ++ [user_message user_input; assistant_message (reply_of (remote p c))]).
Proof.
  intros Hlm Hds Hok Hin p c.
  destruct (handle_submit_run remote h lm refs ds user_input att tr
              Hlm Hds Hok Hin) as (h' & refs' & Hrun & Hlm' & Hds').
  exists h', refs'. split; [|by split].
  unfold submit. rewrite Hin. cbn [andb].
  prun (session_get_run _ _ _).
  by rewrite (lift_ok _ _ _ _ _ _ Hrun).
Qed.

Lemma submit_skipped user_input submitted att pg :
  submitted && str_truthy (strip user_input) = false ->
  submit remote user_input submitted att pg = (Done tt, pg).
Proof. intros H. unfold submit. by rewrite H. Qed.

(** The first run of a browser session is a run on a session whose list
    was just made. *)
Lemma script_new_session env inp h tr scr :
  configured env = true ->
  script remote env inp (Page (State h tr) scr None)
  = script remote env inp
      (Page (State (h ++ [OList []]) tr) scr (Some (VRef (length h)))).
Proof.
  intros Henv. unfold script.
  prun (configure_ok env _ Henv). prun (configure_ok env _ Henv).
  do 8 prun (draw_run _ _ _ _ _).
  prun (eq_refl : session_init (Page (State h tr) _ None) = (Done tt, _)).
  prun (eq_refl : session_init (Page (State (h ++ [OList []]) tr) _
                                  (Some (VRef (length h)))) = (Done tt, _)).
  reflexivity.
Qed.

(** X14.  Without an API key in the environment ([None] or an empty
    string) the script stops at once: it shows the one error and nothing
    else, makes no session list, and sends nothing, whatever was typed or
    uploaded. *)
Theorem missing_key_stops_script env inp pg :
  key_present (apiKEY env) = false ->
  script remote env inp pg
  = (Stops,
     Page (core pg) (screen pg ++ [(Main, WError key_missing_text)])
       (session_messages pg)).
Proof.
  intros Hkey. unfold script.
  by rewrite (p_bind_stops _ _ _ _ (configure_no_key env pg Hkey)).
Qed.

(** X15.  When [genai.configure] raises, the script shows the error with
    the exception's text and stops, with nothing else drawn and nothing
    sent. *)
Theorem configure_failure_stops_script env inp pg k detail :
  apiKEY env = Some k ->
  str_truthy k = true ->
  configure_error env k = Some detail ->
  script remote env inp pg
  = (Stops,
     Page (core pg)
       (screen pg ++ [(Main, WError (lit "Error configuring Gemini API: " ++ detail))])
       (session_messages pg)).
Proof.
  intros Hkey Hk Herr. unfold script.
  by rewrite (p_bind_stops _ _ _ _ (configure_raises env pg k detail Hkey Hk Herr)).
Qed.

Lemma script_accepted_run env inp h tr scr lm ds :
  configured env = true ->
  read_messages h (VRef lm) = Some ds ->
  texts ds = true ->
  in_submitted inp = true ->
  str_truthy (strip (in_text inp)) = true ->
  exists st' reply,
    script remote env inp (Page (State h tr) scr (Some (VRef lm)))
    = (Done tt,
       Page st' (scr ++ page_widgets (bubbles ds) (in_file inp)) (Some (VRef lm)))
    /\ length (bubbles ds) = length ds
    /\ read_messages (heap st') (VRef lm)
       = Some (ds ++ [user_message (in_text inp); assistant_message reply])
    /\ last (trace st') = Some EvRerun.
Proof.
  intros Henv Hread Htexts Hsub Hin.
  rewrite (script_draws env inp h tr scr lm ds Henv Hread Htexts).
  destruct (texts_bubbles ds Htexts) as [_ Hlen].
  pose proof (forallb_Forall _ _ (texts_transcript_ok ds Htexts)) as Hok.
  apply read_messages_Some in Hread as (refs & Hlm & Hds).
  rewrite Hsub.
  destruct (submit_accepted h lm refs ds (in_text inp) (attachment_of (in_file inp)) tr
              (scr ++ page_widgets (bubbles ds) (in_file inp)) Hlm Hds Hok Hin)
    as (h' & refs' & Hrun & Hlm' & Hds').
  eexists _, _. split; [exact Hrun|]. cbn [heap trace].
  split; [exact Hlen|]. split; [by eapply read_messages_intro|].
  rewrite app_comm_cons, app_assoc. apply last_snoc.
Qed.

(** X16.  In the run that handles an accepted submission, the bubbles drawn
    are those of the transcript as it was before: the display comes before
    the handler.  The two new messages are in the session's list when the
    run ends, and the run ends by asking for a rerun. *)
Theorem script_accepted_turn env inp h tr scr lm ds :
  configured env = true ->
  read_messages h (VRef lm) = Some ds ->
  texts ds = true ->
  in_submitted inp = true ->
  str_truthy (strip (in_text inp)) = true ->
  exists st' reply,
    script remote env inp (Page (State h tr) scr (Some (VRef lm)))
    = (Done tt,
       Page st' (scr ++ page_widgets (bubbles ds) (in_file inp)) (Some (VRef lm)))
    /\ length (bubbles ds) = length ds
    /\ read_messages (heap st') (VRef lm)
       = Some (ds ++ [user_message (in_text inp); assistant_message reply])
    /\ last (trace st') = Some EvRerun.
Proof. apply script_accepted_run. Qed.

(** X17.  The run after an accepted submission shows the exchange: after
    the bubbles of the old transcript come a user bubble with the escaped,
    stripped text and a MediBot bubble with the escaped reply; since
    nothing is submitted in that run, it leaves the store and the trace as
    they were. *)
Theorem script_rerun_shows_exchange env inp inp2 h tr scr lm ds :
  configured env = true ->
  read_messages h (VRef lm) = Some ds ->
  texts ds = true ->
  in_submitted inp = true ->
  str_truthy (strip (in_text inp)) = true ->
  in_submitted inp2 = false ->
  exists pg1 reply,
    script remote env inp (Page (State h tr) scr (Some (VRef lm))) = (Done tt, pg1)
    /\ script remote env inp2 (next_run pg1)
       = (Done tt,
          Page (core pg1)
            (page_widgets
               (bubbles ds
                ++ [ (ChatCol,
                      WMarkdown (bubble_html (lit "user-bubble")
                                   (speech_balloon ++ lit " You")
                                   (escape (strip (in_text inp)))) true);
                     (ChatCol,
                      WMarkdown (bubble_html (lit "assistant-bubble")
                                   (robot_face ++ lit " MediBot")
                                   (escape reply)) true) ])
               (in_file inp2))
            (Some (VRef lm))).
Proof.
  intros Henv Hread Htexts Hsub Hin Hidle.
  destruct (script_accepted_run env inp h tr scr lm ds Henv Hread Htexts Hsub Hin)
    as (st' & reply & Hrun & _ & Hread' & _).
  eexists _, reply. split; [exact Hrun|].
  unfold next_run. cbn [core session_messages]. destruct st' as [h' tr'].
  cbn [heap] in Hread'.
  rewrite (script_draws env inp2 h' tr' [] lm _ Henv Hread'
             (texts_snoc_pair ds (in_text inp) reply Htexts)).
  rewrite submit_skipped by (by rewrite Hidle).
  unfold bubbles. rewrite omap_app. reflexivity.
Qed.

(** X18.  The first run of a browser session, with nothing accepted, makes
    the session's list, a new empty list; the page shows the "no messages"
    note and no bubble, and nothing is sent. *)
Theorem first_run_empty env inp h tr :
  configured env = true ->
  in_submitted inp && str_truthy (strip (in_text inp)) = false ->
  script remote env inp (new_page (State h tr))
  = (Done tt,
     Page (State (h ++ [OList []]) tr) (page_widgets [] (in_file inp))
       (Some (VRef (length h))))
  /\ h !! length h = None
  /\ read_messages (h ++ [OList []]) (VRef (length h)) = Some [].
Proof.
  intros Henv Hidle.
  assert (Hread : read_messages (h ++ [OList []]) (VRef (length h)) = Some []).
  { unfold read_messages. cbn [as_ref mbind option_bind].
    by rewrite list_lookup_middle. }
  split; [|split; [by apply lookup_ge_None_2|exact Hread]].
  unfold new_page. rewrite (script_new_session env inp h tr [] Henv).
  rewrite (script_draws env inp _ tr [] (length h) [] Henv Hread eq_refl).
  by rewrite submit_skipped.
Qed.

End ScriptRuns.

(** ** Decoding the attachment *)

Ltac n2z :=
  repeat match goal with H : (_ < _)%N |- _ => apply N2Z.inj_lt in H end;
  try match goal with
      | |- (_ < _)%N => apply N2Z.inj_lt
      | |- @eq N _ _ => apply N2Z.inj
      end;
  repeat (rewrite ?N2Z.inj_add, ?N2Z.inj_mul, ?N2Z.inj_div, ?N2Z.inj_mod in * );
  repeat match goal with
         | |- context [Z.of_N ?b] =>
             is_var b; pose proof (N2Z.is_nonneg b);
             generalize dependent (Z.of_N b); intros
         end;
  simpl (Z.of_N _) in *;
  Z.div_mod_to_equations; lia.

Lemma b64_index_table :
  forallb (fun i => bool_decide (b64_index (b64_char i) = Some i)
                    && negb (b64_char i =? b64_pad)%N)
    (N.of_nat <$> seq 0 64) = true.
Proof. vm_compute. reflexivity. Qed.

Lemma b64_index_char i :
  (i < 64)%N -> b64_index (b64_char i) = Some i /\ (b64_char i =? b64_pad)%N = false.
Proof.
  intros Hi. pose proof b64_index_table as Htab.
  apply forallb_Forall in Htab. rewrite Forall_forall in Htab.
  specialize (Htab i).
  assert (Hin : i ∈ N.of_nat <$> seq 0 64).
  { apply list_elem_of_fmap. exists (N.to_nat i). split; [lia|].
    apply elem_of_seq. lia. }
  apply Htab in Hin. apply andb_true_iff in Hin as [H1 H2].
  apply bool_decide_eq_true in H1. split; [done|].
  by apply negb_true_iff.
Qed.

Ltac b64_step :=
  match goal with
  | |- context [b64_index (b64_char ?i)] =>
      let H := fresh in
      assert (H : (i < 64)%N) by n2z;
      let H1 := fresh in
      let H2 := fresh in
      destruct (b64_index_char i H) as [H1 H2];
      rewrite H1, ?H2; clear H H1 H2
  end.

(** X7.  The attachment text decodes back to the bytes of the file: what
    the remote side can read out of the inline part is the upload itself. *)
Theorem b64decode_b64encode bs :
  is_bytes bs = true -> b64decode (b64encode bs) = Some bs.
Proof.
  revert bs. fix IH 1. intros [|b1 [|b2 [|b3 rest]]]; [done|..];
    cbn [is_bytes forallb]; rewrite ?andb_true_iff, ?N.ltb_lt.
  - intros [H1 _]. cbn [b64encode b64decode].
    do 2 b64_step. cbn [mbind option_bind].
    rewrite N.eqb_refl. f_equal. f_equal. n2z.
  - intros (H1 & H2 & _). cbn [b64encode b64decode].
    do 3 b64_step. cbn [mbind option_bind].
    rewrite N.eqb_refl. f_equal. f_equal; [n2z|]. f_equal. n2z.
  - intros (H1 & H2 & H3 & Hrest). cbn [b64encode b64decode].
    do 4 b64_step. cbn [mbind option_bind].
    rewrite (IH rest Hrest). cbn [mbind option_bind].
    f_equal. f_equal; [n2z|]. f_equal; [n2z|]. f_equal. n2z.
Qed.

Lemma b64decode_b64encode_witness :
  b64decode (b64encode (file_data jpeg_upload)) = Some (file_data jpeg_upload).
Proof. apply b64decode_b64encode. vm_compute. reflexivity. Defined.

(** ** The stored text *)

Lemma lstrip_head s c : head (lstrip s) = Some c -> py_isspace c = false.
Proof.
  induction s as [|x s IH]; [done|]. cbn [lstrip].
  destruct (py_isspace x) eqn:Hx; [exact IH|]. cbn. by intros [= <-].
Qed.

Lemma lstrip_fixed s :
  (forall c, head s = Some c -> py_isspace c = false) -> lstrip s = s.
Proof. destruct s as [|x s]; [done|]. intros H. cbn [lstrip]. by rewrite (H x). Qed.

Lemma lstrip_snoc l c : py_isspace c = false -> lstrip (l ++ [c]) = lstrip l ++ [c].
Proof.
  intros Hc. induction l as [|x l IH]; cbn [app lstrip]; [by rewrite Hc|].
  by destruct (py_isspace x).
Qed.

Lemma rstrip_cons c r : py_isspace c = false -> rstrip (c :: r) = c :: rstrip r.
Proof.
  intros Hc. unfold rstrip. rewrite reverse_cons, (lstrip_snoc _ _ Hc).
  by rewrite reverse_app.
Qed.

Lemma rstrip_last s c : last (rstrip s) = Some c -> py_isspace c = false.
Proof. unfold rstrip. rewrite last_reverse. apply lstrip_head. Qed.

Lemma strip_head s c : head (strip s) = Some c -> py_isspace c = false.
Proof.
  unfold strip. destruct (lstrip s) as [|x r] eqn:E; [done|].
  assert (Hx : py_isspace x = false) by (apply (lstrip_head s); by rewrite E).
  rewrite (rstrip_cons _ _ Hx). cbn. by intros [= <-].
Qed.

Lemma strip_last s c : last (strip s) = Some c -> py_isspace c = false.
Proof. unfold strip. apply rstrip_last. Qed.

Lemma strip_strip s : strip (strip s) = strip s.
Proof.
  set (t := strip s).
  assert (Hl : lstrip t = t) by (apply lstrip_fixed, strip_head).
  unfold strip at 1. rewrite Hl. unfold rstrip.
  rewrite lstrip_fixed; [by rewrite reverse_involutive|].
  intros c. rewrite head_reverse. apply strip_last.
Qed.

Section MoreRuns.

Variable remote : list turn -> val -> remote_outcome.

(** X21.  The user text the handler stores is never empty and never starts
    or ends with whitespace; stripping it again changes nothing. *)
Theorem stored_user_text_is_trimmed h lm ds user_input att tr :
  read_messages h (VRef lm) = Some ds ->
  transcript_ok ds = true ->
  str_truthy (strip user_input) = true ->
  exists st' reply s,
    handle_submit remote (VRef lm) true user_input att (State h tr) = (Ok tt, st')
    /\ read_messages (heap st') (VRef lm)
       = Some (ds ++ [ {[ "role" := VStr (lit "user"); "content" := VStr s ]};
                       assistant_message reply ])
    /\ s <> []
    /\ (forall c, head s = Some c -> py_isspace c = false)
    /\ (forall c, last s = Some c -> py_isspace c = false)
    /\ strip s = s.
Proof.
  intros (refs & Hlm & Hds)%read_messages_Some Hok%forallb_Forall Hin.
  destruct (handle_submit_run remote h lm refs ds user_input att tr
              Hlm Hds Hok Hin) as (h' & refs' & Hrun & Hlm' & Hds').
  eexists _, _, (strip user_input). split; [exact Hrun|]. cbn [heap].
  split; [by eapply read_messages_intro|].
  split; [by destruct (strip user_input)|].
  split; [apply strip_head|]. split; [apply strip_last|apply strip_strip].
Qed.

(** X19.  An attachment text that is the empty string counts as no
    attachment (line 51 tests its truth): with it [get_medibot_reply], and
    so the handler, run exactly as with [None], to the same result, store
    and messages sent. *)
Theorem empty_attachment_text_ignored messages language submitted user_input st :
  get_medibot_reply remote messages language (Some []) st
  = get_medibot_reply remote messages language None st
  /\ handle_submit remote messages submitted user_input (Some []) st
     = handle_submit remote messages submitted user_input None st.
Proof. split; reflexivity. Qed.

(** X20.  When the handler runs with the base64 text of a file's bytes
    (line 133) and there is at least one byte, the attachment goes out with
    the user turn: the last turn of the history is the user's text followed
    by one inline part, whose data is that base64 text and whose MIME type
    is "image/png" whatever the bytes are; no other turn has an inline
    part. *)
Theorem uploaded_bytes_sent_as_png h lm ds user_input (file_bytes : list N) tr :
  read_messages h (VRef lm) = Some ds ->
  texts ds = true ->
  str_truthy (strip user_input) = true ->
  file_bytes <> [] ->
  exists st' front rest,
    handle_submit remote (VRef lm) true user_input (Some (b64encode file_bytes))
      (State h tr) = (Ok tt, st')
    /\ trace st'
       = tr ++ EvSend (front ++ [Turn (lit "user")
                                   [PText (strip user_input);
                                    PInline (lit "image/png") (b64encode file_bytes)]])
                      (VStr (strip user_input)) :: rest
    /\ Forall (fun t => has_inline t = false) front.
Proof.
  intros (refs & Hlm & Hds)%read_messages_Some Hok%texts_transcript_ok%forallb_Forall
    Hin Hdata.
  destruct (handle_submit_run remote h lm refs ds user_input
              (Some (b64encode file_bytes)) tr Hlm Hds Hok Hin)
    as (h' & refs' & Hrun & _).
  rewrite payload_last_user in Hrun.
  eexists _, _, _. split; [exact Hrun|]. cbn [trace].
  unfold attachment_parts. rewrite (b64encode_truthy _ Hdata). split; [reflexivity|].
  unfold priming_pair. cbn [app].
  do 2 (constructor; [done|]). apply message_turn_no_inline.
Qed.

(** X22.  On a transcript of string contents with a last message, the
    operator is shown an error by [get_medibot_reply] exactly when
    something raised after the message went out: the call itself, or the
    read of [response.text] on a reply that holds no part; and then it is
    that exception.  A response whose text reads as a string, empty or not,
    shows none. *)
Theorem st_error_exactly_when_raised h0 lm ds d language att tr :
  read_messages h0 (VRef lm) = Some ds ->
  texts ds = true ->
  last ds = Some d ->
  let o := remote (payload_of language ds att) (get_field d "content") in
  exists s st' evs,
    get_medibot_reply remote (VRef lm) language att (State h0 tr) = (Ok s, st')
    /\ trace st'
       = tr ++ EvSend (payload_of language ds att) (get_field d "content") :: evs
    /\ (forall e,
          EvStError e ∈ evs <->
          (exists detail, o = CallRaises detail /\ e = RemoteError detail)
          \/ (exists r detail,
                o = CallReturns (Some r) /\ text r = TextRaises detail
                /\ e = ValueError detail)).
Proof.
  intros (refs & Hlm & Hds)%read_messages_Some Hok%texts_transcript_ok%forallb_Forall
    Hd o.
  eexists _, _, _. split; [by eapply get_medibot_reply_run|]. cbn [trace].
  split; [reflexivity|]. fold o. intros e.
  destruct o as [detail|[r|]]; cbn [reply_events].
  - rewrite list_elem_of_singleton. split.
    + intros [= ->]. left. by exists detail.
    + intros [(detail' & [= <-] & ->)|(r & detail' & [=] & _)]. reflexivity.
  - destruct (text r) as [detail|[|a t]] eqn:Ht.
    + rewrite list_elem_of_singleton. split.
      * intros [= ->]. right. by exists r, detail.
      * intros [(detail' & [=] & _)|(r' & detail' & [= <-] & Ht' & ->)].
        rewrite Ht in Ht'. by injection Ht' as ->.
    + split.
      * destruct (prompt_feedback r) as [ratings|].
        -- intros [=]%list_elem_of_singleton.
        -- intros []%elem_of_nil.
      * intros [(detail' & [=] & _)|(r' & detail' & [= <-] & Ht' & _)].
        by rewrite Ht in Ht'.
    + split.
      * intros []%elem_of_nil.
      * intros [(detail' & [=] & _)|(r' & detail' & [= <-] & Ht' & _)].
        by rewrite Ht in Ht'.
  - split.
    + intros []%elem_of_nil.
    + intros [(detail' & [=] & _)|(r' & detail' & [=] & _)].
Qed.

Lemma script_step_some env inp h tr scr lm ds :
  configured env = true ->
  read_messages h (VRef lm) = Some ds ->
  texts ds = true ->
  paired ds = true ->
  exists pg',
    script remote env inp (Page (State h tr) scr (Some (VRef lm))) = (Done tt, pg')
    /\ page_ok pg' /\ is_Some (session_messages pg').
Proof.
  intros Henv Hread Htexts Hp.
  destruct (in_submitted inp && str_truthy (strip (in_text inp))) eqn:Hacc.
  - apply andb_true_iff in Hacc as [Hsub Hin].
    destruct (script_accepted_run remote env inp h tr scr lm ds Henv Hread Htexts Hsub Hin)
      as (st' & reply & Hrun & _ & Hread' & _).
    eexists. split; [exact Hrun|]. split; [|by eexists].
    unfold page_ok. cbn [session_messages core].
    exists lm, (ds ++ [user_message (in_text inp); assistant_message reply]).
    repeat split; try done.
    + by apply texts_snoc_pair.
    + by apply paired_app.
  - rewrite (script_draws remote env inp h tr scr lm ds Henv Hread Htexts).
    rewrite (submit_skipped remote _ _ _ _ Hacc).
    eexists. split; [reflexivity|]. split; [|by eexists].
    unfold page_ok. cbn [session_messages core heap]. by exists lm, ds.
Qed.

Lemma page_ok_step env inp pg :
  configured env = true ->
  page_ok pg ->
  exists pg', script remote env inp pg = (Done tt, pg') /\ page_ok (next_run pg')
              /\ is_Some (session_messages pg').
Proof.
  intros Henv Hpg. destruct pg as [[h tr] scr [v|]]; unfold page_ok in Hpg;
    cbn [session_messages core heap] in Hpg.
  - destruct Hpg as (lm & ds & -> & Hread & Htexts & Hp).
    destruct (script_step_some env inp h tr scr lm ds Henv Hread Htexts Hp)
      as (pg' & Hrun & Hok & Hses).
    by exists pg'.
  - rewrite (script_new_session remote env inp h tr scr Henv).
    destruct (script_step_some env inp (h ++ [OList []]) tr scr (length h) [] Henv)
      as (pg' & Hrun & Hok & Hses); try done.
    { unfold read_messages. cbn [as_ref mbind option_bind].
      by rewrite list_lookup_middle. }
    by exists pg'.
Qed.

(** X23.  With a configured key, no run of a session ever ends in an
    exception or a stop, whatever is typed and uploaded and whatever the
    remote side does: every run draws its page to the end, and between runs
    the session's list is a transcript of user/assistant pairs with string
    contents. *)
Theorem session_never_crashes env inps pg :
  configured env = true ->
  page_ok pg ->
  exists pg', runs remote env inps pg = (Done tt, pg') /\ page_ok pg'.
Proof.
  intros Henv. revert pg. induction inps as [|inp inps IH]; intros pg Hpg.
  - by exists pg.
  - cbn [runs].
    destruct (page_ok_step env inp pg Henv Hpg) as (pg1 & Hrun & Hok & _).
    rewrite Hrun. by apply IH.
Qed.

End MoreRuns.

(** ** Concrete runs of the added results *)

Lemma handler_changes_only_the_list_witness :
  exists st',
    handle_submit echo_remote (VRef 0) true (lit " more ") None (State demo_heap [])
    = (Ok tt, st')
    /\ heap st' !! 1 = Some (ODict (user_message (lit "hi"))).
Proof.
  destruct (handler_changes_only_the_list echo_remote demo_heap 0 demo_transcript
              (lit " more ") None [])
    as (st' & refs & u & a & Hrun & _ & _ & _ & _ & _ & _ & _ & Hframe);
    [vm_compute; reflexivity..|].
  exists st'. split; [exact Hrun|]. apply Hframe; [lia|reflexivity].
Defined.

Lemma last_message_sent_twice_witness :
  exists st',
    handle_submit echo_remote (VRef 0) true (lit " more ") None (State demo_heap [])
    = (Ok tt, st')
    /\ count_sends (trace st') = count_sends [] + 1.
Proof.
  destruct (last_message_sent_twice echo_remote demo_heap 0 demo_transcript
              (lit " more ") None [])
    as (st' & front & extra & rest & Hrun & _ & Hcount);
    [vm_compute; reflexivity..|].
  exists st'. split; [exact Hrun|exact Hcount].
Defined.

Lemma whole_transcript_resent_witness :
  exists st' p c rest,
    handle_submit echo_remote (VRef 0) true (lit " more ") None (State demo_heap [])
    = (Ok tt, st')
    /\ trace st' = [] ++ EvSend p c :: rest
    /\ length p = length demo_transcript + 3
    /\ Forall2 turn_matches (demo_transcript ++ [user_message (lit " more ")]) (drop 2 p).
Proof.
  apply (whole_transcript_resent echo_remote demo_heap 0 demo_transcript
           (lit " more ") None []); vm_compute; reflexivity.
Defined.

Lemma other_roles_skipped_witness :
  exists ch st' p,
    build_payload (VRef 0) (lit "English") None (State noted_heap []) = (Ok ch, st')
    /\ read_payload (heap st') ch = Some p
    /\ length p = 2 + length (filter (fun d => known_role d = true) noted_transcript)
    /\ Forall2 turn_matches (filter (fun d => known_role d = true) noted_transcript)
         (drop 2 p).
Proof.
  apply (other_roles_skipped noted_heap 0 noted_transcript (lit "English") None []);
    vm_compute; reflexivity.
Defined.

Lemma session_append_only_witness :
  exists st' extra,
    run_turns echo_remote (VRef 0) demo_turns (State demo_heap []) = (Ok tt, st')
    /\ read_messages (heap st') (VRef 0) = Some (demo_transcript ++ extra)
    /\ length extra = 2 * count_accepted demo_turns.
Proof.
  apply (session_append_only echo_remote demo_turns demo_heap 0 demo_transcript []);
    vm_compute; reflexivity.
Defined.

Lemma session_one_send_per_accepted_turn_witness :
  exists st',
    run_turns failing_remote (VRef 0) demo_turns (State demo_heap []) = (Ok tt, st')
    /\ count_sends (trace st') = count_sends [] + count_accepted demo_turns.
Proof.
  apply (session_one_send_per_accepted_turn failing_remote demo_turns demo_heap 0
           demo_transcript []); vm_compute; reflexivity.
Defined.

Lemma missing_key_stops_script_witness :
  script echo_remote no_key_env (ask (Some jpeg_upload)) demo_page
  = (Stops,
     Page (core demo_page) (screen demo_page ++ [(Main, WError key_missing_text)])
       (session_messages demo_page)).
Proof. apply missing_key_stops_script. reflexivity. Defined.

Lemma configure_failure_stops_script_witness :
  script echo_remote refused_env (ask None) demo_page
  = (Stops,
     Page (core demo_page)
       (screen demo_page
        ++ [(Main, WError (lit "Error configuring Gemini API: " ++ lit "invalid key"))])
       (session_messages demo_page)).
Proof.
  apply (configure_failure_stops_script echo_remote refused_env (ask None) demo_page
           (lit "k-123") (lit "invalid key")); reflexivity.
Defined.

Lemma script_accepted_turn_witness :
  exists st' reply,
    script echo_remote demo_env (ask None) (Page (State demo_heap []) [] (Some (VRef 0)))
    = (Done tt,
       Page st' ([] ++ page_widgets (bubbles demo_transcript) (in_file (ask None)))
         (Some (VRef 0)))
    /\ length (bubbles demo_transcript) = length demo_transcript
    /\ read_messages (heap st') (VRef 0)
       = Some (demo_transcript
               ++ [user_message (in_text (ask None)); assistant_message reply])
    /\ last (trace st') = Some EvRerun.
Proof.
  apply (script_accepted_turn echo_remote demo_env (ask None) demo_heap [] [] 0
           demo_transcript); vm_compute; reflexivity.
Defined.

Lemma script_rerun_shows_exchange_witness :
  exists pg1 pg2,
    script echo_remote demo_env (ask None) demo_page = (Done tt, pg1)
    /\ script echo_remote demo_env idle (next_run pg1) = (Done tt, pg2)
    /\ core pg2 = core pg1.
Proof.
  destruct (script_rerun_shows_exchange echo_remote demo_env (ask None) idle
              demo_heap [] [] 0 demo_transcript)
    as (pg1 & reply & Hrun1 & Hrun2); [vm_compute; reflexivity..|].
  eexists pg1, _. split; [exact Hrun1|]. split; [exact Hrun2|]. reflexivity.
Defined.

Lemma first_run_empty_witness :
  script echo_remote demo_env idle (new_page (State [] []))
  = (Done tt,
     Page (State ([] ++ [OList []]) []) (page_widgets [] (in_file idle))
       (Some (VRef (length (@nil obj)))))
  /\ (@nil obj) !! length (@nil obj) = None
  /\ read_messages ([] ++ [OList []]) (VRef (length (@nil obj))) = Some [].
Proof. apply (first_run_empty echo_remote demo_env idle [] []); reflexivity. Defined.

Lemma uploaded_bytes_sent_as_png_witness :
  exists st' front rest,
    handle_submit echo_remote (VRef 0) true (lit " and a cough ")
      (Some (b64encode (file_data png_upload))) (State demo_heap []) = (Ok tt, st')
    /\ trace st'
       = [] ++ EvSend (front ++ [Turn (lit "user")
                                   [PText (strip (lit " and a cough "));
                                    PInline (lit "image/png")
                                      (b64encode (file_data png_upload))]])
                      (VStr (strip (lit " and a cough "))) :: rest
    /\ Forall (fun t => has_inline t = false) front.
Proof.
  apply (uploaded_bytes_sent_as_png echo_remote demo_heap 0 demo_transcript
           (lit " and a cough ") (file_data png_upload) []);
    try (vm_compute; reflexivity). discriminate.
Defined.

Lemma stored_user_text_is_trimmed_witness :
  exists st' reply s,
    handle_submit echo_remote (VRef 0) true (lit "  mild fever  ") None
      (State demo_heap []) = (Ok tt, st')
    /\ read_messages (heap st') (VRef 0)
       = Some (demo_transcript
               ++ [ {[ "role" := VStr (lit "user"); "content" := VStr s ]};
                    assistant_message reply ])
    /\ s <> []
    /\ (forall c, head s = Some c -> py_isspace c = false)
    /\ (forall c, last s = Some c -> py_isspace c = false)
    /\ strip s = s.
Proof.
  apply (stored_user_text_is_trimmed echo_remote demo_heap 0 demo_transcript
           (lit "  mild fever  ") None []); vm_compute; reflexivity.
Defined.

Lemma st_error_exactly_when_raised_witness :
  exists s st' evs,
    get_medibot_reply failing_remote (VRef 0) (lit "English") None (State asked_heap [])
    = (Ok s, st')
    /\ trace st'
       = [] ++ EvSend (payload_of (lit "English") asked_transcript None)
                      (get_field (user_message (lit "fever")) "content") :: evs
    /\ EvStError (RemoteError (lit "timeout")) ∈ evs.
Proof.
  destruct (st_error_exactly_when_raised failing_remote asked_heap 0 asked_transcript
              (user_message (lit "fever")) (lit "English") None [])
    as (s & st' & evs & Hrun & Htr & Hiff); [vm_compute; reflexivity..|].
  exists s, st', evs. split; [exact Hrun|]. split; [exact Htr|].
  apply Hiff. left. exists (lit "timeout"). split; reflexivity.
Defined.

Lemma session_never_crashes_witness :
  exists pg',
    runs echo_remote demo_env [ask (Some png_upload); idle; ask None]
      (new_page (State [] [])) = (Done tt, pg')
    /\ page_ok pg'.
Proof.
  apply (session_never_crashes echo_remote demo_env
           [ask (Some png_upload); idle; ask None] (new_page (State [] [])));
    [reflexivity|exact I].
Defined.

(** X24.  A submission is accepted as soon as its text has one character
    that is not whitespace, and then the transcript grows by the two
    messages; without a submission nothing happens, text or not. *)
Theorem visible_text_is_accepted
    (remote : list turn -> val -> remote_outcome) h lm ds user_input att tr :
  read_messages h (VRef lm) = Some ds ->
  transcript_ok ds = true ->
  forallb py_isspace user_input = false ->
  (exists st' reply,
     handle_submit remote (VRef lm) true user_input att (State h tr) = (Ok tt, st')
     /\ read_messages (heap st') (VRef lm)
        = Some (ds ++ [user_message user_input; assistant_message reply]))
  /\ handle_submit remote (VRef lm) false user_input att (State h tr)
     = (Ok tt, State h tr).
Proof.
  intros (refs & Hlm & Hds)%read_messages_Some Hok%forallb_Forall Hvis.
  split; [|reflexivity].
  assert (Hin : str_truthy (strip user_input) = true).
  { destruct (strip user_input) as [|c s] eqn:E; [|done].
    apply strip_nil_inv in E. congruence. }
  destruct (handle_submit_run remote h lm refs ds user_input att tr
              Hlm Hds Hok Hin) as (h' & refs' & Hrun & Hlm' & Hds').
  eexists _, _. split; [exact Hrun|]. cbn [heap]. by eapply read_messages_intro.
Qed.

Lemma visible_text_is_accepted_witness :
  (exists st' reply,
     handle_submit echo_remote (VRef 0) true (lit "  x ") None (State demo_heap [])
     = (Ok tt, st')
     /\ read_messages (heap st') (VRef 0)
        = Some (demo_transcript ++ [user_message (lit "  x "); assistant_message reply]))
  /\ handle_submit echo_remote (VRef 0) false (lit "  x ") None (State demo_heap [])
     = (Ok tt, State demo_heap []).
Proof.
  apply (visible_text_is_accepted echo_remote demo_heap 0 demo_transcript
           (lit "  x ") None []); vm_compute; reflexivity.
Defined.
